(** * Symbiotic MCP server: the visual-regression / baseline workflow

    A shallow embedding of the baseline tools of the tool server
    ([saveBaseline], [compareToBaseline], [visualRegression],
    [updateBaseline], [listBaselines]), of the dispatcher [handleTool] and of
    the command-line entry point, together with the properties of the
    workflow.

    - JavaScript numbers are IEEE-754 binary64 values: Rocq's primitive
      floats.
    - Node [Buffer]s are lists of bytes.
    - The file system is a finite map from paths to file contents.
    - The browser, the clock and [Math.random] are oracles carried by the
      world; every tool is a state-and-exception computation over it. *)

From Stdlib Require Import ZArith NArith Floats List Bool Lia.
From Stdlib.Strings Require Import Byte Ascii String.
From stdpp Require Import base option list strings gmap pretty.

Set Warnings "-inexact-float,-register-all,-abstract-large-number".

Local Open Scope string_scope.
Local Open Scope list_scope.

(** ** JavaScript numbers *)

Module Js.

Definition number := float.

(** An integer of the safe range (array lengths, counters) as a number. *)
Definition of_Z (z : Z) : number :=
  if (z <? 0)%Z then PrimFloat.opp (PrimFloat.of_uint63 (Uint63.of_Z (- z)))
  else PrimFloat.of_uint63 (Uint63.of_Z z).

Definition of_nat (n : nat) : number := of_Z (Z.of_nat n).

(** [Math.floor]: values with a non-negative binary exponent are integers
    already; the others are below 2^53 in magnitude, where the quotient is
    exact. *)
Definition Math_floor (x : number) : number :=
  match Prim2SF x with
  | S754_finite s m e =>
      if (0 <=? e)%Z then x
      else
        let den := (2 ^ (- e))%Z in
        let q := ((if s then Z.neg m else Z.pos m) / den)%Z in
        if (q =? 0)%Z then PrimFloat.zero else of_Z q
  | _ => x
  end.

(** [Math.round]: the integer nearest to [x], ties towards +infinity,
    that is floor(x + 1/2) computed without intermediate rounding. *)
Definition Math_round (x : number) : number :=
  match Prim2SF x with
  | S754_finite s m e =>
      if (0 <=? e)%Z then x
      else
        let den := (2 ^ (- e))%Z in
        let num := (if s then Z.neg m else Z.pos m) in
        let q := ((2 * num + den) / (2 * den))%Z in
        if (q =? 0)%Z then (if s then PrimFloat.neg_zero else PrimFloat.zero)
        else of_Z q
  | _ => x
  end.

(** The integer a non-negative number truncates to, for indexing. *)
Definition to_index (x : number) : option nat :=
  match Prim2SF x with
  | S754_zero _ => Some 0
  | S754_finite false m e =>
      if (0 <=? e)%Z then Some (Z.to_nat (Z.pos m * 2 ^ e))
      else if (Z.pos m mod 2 ^ (- e) =? 0)%Z
           then Some (Z.to_nat (Z.pos m / 2 ^ (- e)))
           else None
  | _ => None
  end.

(** Two decimals, zero padded: the digits of [n] hundredths. *)
Definition fixed2_digits (n : N) : string :=
  let frac := (n mod 100)%N in
  pretty (n / 100)%N +:+ "." +:+
  (if (frac <? 10)%N then "0" else "") +:+ pretty frac.

(** [x.toFixed(2)]: the integer [n] for which [n / 100 - x] is closest to
    zero (the larger one on a tie), printed with two decimals.  All values
    formatted by the server are below 1e21, where JavaScript switches to
    exponent notation. *)
Definition toFixed2 (x : number) : string :=
  match Prim2SF x with
  | S754_nan => "NaN"
  | S754_infinity s => if s then "-Infinity" else "Infinity"
  | S754_zero _ => "0.00"
  | S754_finite s m e =>
      let n :=
        if (0 <=? e)%Z then (100 * Z.pos m * 2 ^ e)%Z
        else ((200 * Z.pos m + 2 ^ (- e)) / (2 * 2 ^ (- e)))%Z in
      (if s then "-" else "") +:+ fixed2_digits (Z.to_N n)
  end.

End Js.

(** ** Buffers *)

Definition Buffer := list byte.

#[global] Instance byte_eq_dec : EqDecision byte := Byte.byte_eq_dec.

(** ** [createHash('md5').update(buf).digest('hex')] (RFC 1321) *)

Module MD5.

Local Open Scope N_scope.

Definition w32 (x : N) : N := x mod 2 ^ 32.
Definition not32 (x : N) : N := N.lxor x 0xffffffff.
Definition rotl (x c : N) : N :=
  w32 (N.lor (N.shiftl x c) (N.shiftr x (32 - c))).

(** floor(2^32 * |sin(i + 1)|), i = 0 .. 63 *)
Definition K : list N :=
  [ 0xd76aa478; 0xe8c7b756; 0x242070db; 0xc1bdceee; 0xf57c0faf; 0x4787c62a; 0xa8304613; 0xfd469501;
    0x698098d8; 0x8b44f7af; 0xffff5bb1; 0x895cd7be; 0x6b901122; 0xfd987193; 0xa679438e; 0x49b40821;
    0xf61e2562; 0xc040b340; 0x265e5a51; 0xe9b6c7aa; 0xd62f105d; 0x02441453; 0xd8a1e681; 0xe7d3fbc8;
    0x21e1cde6; 0xc33707d6; 0xf4d50d87; 0x455a14ed; 0xa9e3e905; 0xfcefa3f8; 0x676f02d9; 0x8d2a4c8a;
    0xfffa3942; 0x8771f681; 0x6d9d6122; 0xfde5380c; 0xa4beea44; 0x4bdecfa9; 0xf6bb4b60; 0xbebfbc70;
    0x289b7ec6; 0xeaa127fa; 0xd4ef3085; 0x04881d05; 0xd9d4d039; 0xe6db99e5; 0x1fa27cf8; 0xc4ac5665;
    0xf4292244; 0x432aff97; 0xab9423a7; 0xfc93a039; 0x655b59c3; 0x8f0ccc92; 0xffeff47d; 0x85845dd1;
    0x6fa87e4f; 0xfe2ce6e0; 0xa3014314; 0x4e0811a1; 0xf7537e82; 0xbd3af235; 0x2ad7d2bb; 0xeb86d391 ].

(** per-round shift amounts *)
Definition S : list N :=
  [ 7; 12; 17; 22; 7; 12; 17; 22; 7; 12; 17; 22; 7; 12; 17; 22;
    5;  9; 14; 20; 5;  9; 14; 20; 5;  9; 14; 20; 5;  9; 14; 20;
    4; 11; 16; 23; 4; 11; 16; 23; 4; 11; 16; 23; 4; 11; 16; 23;
    6; 10; 15; 21; 6; 10; 15; 21; 6; 10; 15; 21; 6; 10; 15; 21 ].

Record state := State { sa : N; sb : N; sc : N; sd : N }.

Definition init : state :=
  State 0x67452301 0xefcdab89 0x98badcfe 0x10325476.

(** One of the 64 operations on the sixteen words [M] of a block. *)
Definition step (M : list N) (st : state) (i : N) : state :=
  let '(State A B C D) := st in
  let '(F, g) :=
    if i <? 16 then (N.lor (N.land B C) (N.land (not32 B) D), i)
    else if i <? 32 then
      (N.lor (N.land D B) (N.land (not32 D) C), (5 * i + 1) mod 16)
    else if i <? 48 then (N.lxor B (N.lxor C D), (3 * i + 5) mod 16)
    else (N.lxor C (N.lor B (not32 D)), (7 * i) mod 16) in
  let F' := w32 (F + A + nth (N.to_nat i) K 0 + nth (N.to_nat g) M 0) in
  State D (w32 (B + rotl F' (nth (N.to_nat i) S 0))) B C.

(** little-endian 32-bit words of a block *)
Fixpoint words (bs : list N) : list N :=
  match bs with
  | b0 :: b1 :: b2 :: b3 :: rest =>
      (b0 + 2 ^ 8 * b1 + 2 ^ 16 * b2 + 2 ^ 24 * b3) :: words rest
  | _ => []
  end.

Definition block (st : state) (bs : list N) : state :=
  let '(State A B C D) :=
    fold_left (step (words bs)) (map N.of_nat (seq 0 64)) st in
  State (w32 (sa st + A)) (w32 (sb st + B)) (w32 (sc st + C)) (w32 (sd st + D)).

(** [n] bytes of the little-endian representation of [x] *)
Fixpoint le_bytes (n : nat) (x : N) : list N :=
  match n with
  | O => []
  | Datatypes.S n' => (x mod 256) :: le_bytes n' (x / 256)
  end.

(** message, 0x80, zeros up to 56 mod 64, bit length on 64 bits *)
Definition pad (msg : list N) : list N :=
  let len := N.of_nat (length msg) in
  let zeros := (119 - len mod 64) mod 64 in
  msg ++ [0x80] ++ repeat 0 (N.to_nat zeros) ++ le_bytes 8 ((8 * len) mod 2 ^ 64).

Fixpoint blocks (fuel : nat) (st : state) (bs : list N) : state :=
  match fuel, bs with
  | Datatypes.S fuel', _ :: _ => blocks fuel' (block st (firstn 64 bs)) (skipn 64 bs)
  | _, _ => st
  end.

Definition hex_digit (n : N) : ascii :=
  nth (N.to_nat n) (list_ascii_of_string "0123456789abcdef") "0"%char.

Definition hex_byte (b : N) : string :=
  String (hex_digit (b / 16)) (String (hex_digit (b mod 16)) EmptyString).

Definition hex (bs : list N) : string :=
  fold_right (fun b acc => hex_byte b +:+ acc) EmptyString bs.

Definition digest_hex (buf : Buffer) : string :=
  let msg := pad (map Byte.to_N buf) in
  let '(State A B C D) := blocks (length msg) init msg in
  hex (le_bytes 4 A ++ le_bytes 4 B ++ le_bytes 4 C ++ le_bytes 4 D).

End MD5.

(** ** JavaScript values and object literals *)

Inductive Value :=
  | VBool (b : bool)
  | VNum (x : Js.number)
  | VStr (s : string)
  | VArr (items : list Value)
  | VObj (props : list (string * Value)).

(** An object literal: its properties in source order. *)
Definition Obj := list (string * Value).

(** [o.k]; [None] is [undefined]. *)
Fixpoint get (k : string) (o : Obj) : option Value :=
  match o with
  | [] => None
  | (k', v) :: o' => if String.eqb k k' then Some v else get k o'
  end.

(** ** Strings *)

(** [s.split(sep)] for a one-character separator *)
Fixpoint split_on (sep : ascii) (s : string) : list string :=
  match s with
  | EmptyString => [EmptyString]
  | String c s' =>
      if Ascii.eqb c sep then EmptyString :: split_on sep s'
      else match split_on sep s' with
           | [] => [String c EmptyString]
           | seg :: segs => String c seg :: segs
           end
  end.

(** [s.slice(0, n)] *)
Definition slice0 (n : nat) (s : string) : string := String.substring 0 n s.

(** the rest of [s] after the prefix [p], when [s] starts with [p] *)
Fixpoint strip_prefix (p s : string) : option string :=
  match p, s with
  | EmptyString, _ => Some s
  | String a p', String b s' => if Ascii.eqb a b then strip_prefix p' s' else None
  | _, _ => None
  end.

Definition endsWith (s suffix : string) : bool :=
  let n := String.length s in
  let k := String.length suffix in
  (k <=? n)%nat && String.eqb (String.substring (n - k) k s) suffix.

(** [s.replace(pat, rep)] with a string pattern: the first occurrence only *)
Fixpoint replace_first (pat rep s : string) : string :=
  match strip_prefix pat s with
  | Some rest => rep +:+ rest
  | None => match s with
            | EmptyString => EmptyString
            | String c s' => String c (replace_first pat rep s')
            end
  end.

(** [path.join(dir, file)], as the server uses it: a directory constant and
    a file name put together with a separator.  (Node also resolves "." and
    ".." segments; the file names built from a name and a viewport are taken
    as they are written.) *)
Definition join (dir file : string) : string := dir +:+ "/" +:+ file.

(** ** The world: files, browser, clock and random source *)

Inductive Error :=
  | LaunchError                  (* chromium.launch rejected *)
  | NavigationError              (* newPage / goto rejected or timed out *)
  | CaptureError                 (* page.screenshot rejected *)
  | ENOENT (path : string)       (* a file operation on a missing path *)
  | SyntaxError (text : string)  (* JSON.parse *)
  | TypeError (msg : string).

Record World := mkWorld {
  fs : gmap string Buffer;        (* path -> content *)
  launch_ok : bool;               (* does chromium.launch succeed *)
  goto_ok : bool;                 (* does the site load in time *)
  page : nat -> option Buffer;    (* outcome of the k-th page.screenshot *)
  shots : nat;                    (* screenshots requested so far *)
  clock : nat -> string;          (* toISOString() at the k-th reading *)
  ticks : nat;                    (* clock readings so far *)
  random : nat -> Js.number;      (* the k-th Math.random() *)
  draws : nat;                    (* random numbers drawn so far *)
  err_message : Error -> string;      (* err.message *)
  err_stack : Error -> option string; (* err.stack *)
  browsers : nat                  (* browser processes currently open *)
}.

Definition with_fs (f : gmap string Buffer -> gmap string Buffer) (w : World) : World :=
  mkWorld (f (fs w)) (launch_ok w) (goto_ok w) (page w) (shots w) (clock w)
          (ticks w) (random w) (draws w) (err_message w) (err_stack w) (browsers w).
Definition with_shots (n : nat) (w : World) : World :=
  mkWorld (fs w) (launch_ok w) (goto_ok w) (page w) n (clock w)
          (ticks w) (random w) (draws w) (err_message w) (err_stack w) (browsers w).
Definition with_ticks (n : nat) (w : World) : World :=
  mkWorld (fs w) (launch_ok w) (goto_ok w) (page w) (shots w) (clock w)
          n (random w) (draws w) (err_message w) (err_stack w) (browsers w).
Definition with_draws (n : nat) (w : World) : World :=
  mkWorld (fs w) (launch_ok w) (goto_ok w) (page w) (shots w) (clock w)
          (ticks w) (random w) n (err_message w) (err_stack w) (browsers w).
Definition with_browsers (n : nat) (w : World) : World :=
  mkWorld (fs w) (launch_ok w) (goto_ok w) (page w) (shots w) (clock w)
          (ticks w) (random w) (draws w) (err_message w) (err_stack w) n.

(** ** Computations: state plus exceptions *)

Inductive Outcome (A : Type) :=
  | Return (a : A)
  | Throw (e : Error).
Arguments Return {A} a.
Arguments Throw {A} e.

Definition M (A : Type) : Type := World -> Outcome A * World.

#[global] Instance M_ret : MRet M := fun A a w => (Return a, w).
#[global] Instance M_bind : MBind M := fun A B k m w =>
  match m w with
  | (Return a, w') => k a w'
  | (Throw e, w') => (Throw e, w')
  end.

Definition throw {A} (e : Error) : M A := fun w => (Throw e, w).

(** [try { body } finally { fin }] *)
Definition try_finally {A} (body : M A) (fin : M unit) : M A := fun w =>
  let '(o, w1) := body w in
  match fin w1 with
  | (Return _, w2) => (o, w2)
  | (Throw e, w2) => (Throw e, w2)
  end.

(** [try { body } catch (err) { handler }] *)
Definition try_catch {A} (body : M A) (handler : Error -> M A) : M A := fun w =>
  match body w with
  | (Return a, w') => (Return a, w')
  | (Throw e, w') => handler e w'
  end.

(** *** fs

    The directories of the server exist (it creates them when it starts)
    and the disk takes what is written: a write succeeds; reading or
    unlinking a missing file throws. *)

Definition existsSync (p : string) : M bool := fun w =>
  (Return (bool_decide (is_Some (fs w !! p))), w).

Definition readFileSync (p : string) : M Buffer := fun w =>
  match fs w !! p with
  | Some data => (Return data, w)
  | None => (Throw (ENOENT p), w)
  end.

Definition writeFileSync (p : string) (data : Buffer) : M unit := fun w =>
  (Return tt, with_fs (insert p data) w).

Definition unlinkSync (p : string) : M unit := fun w =>
  match fs w !! p with
  | Some _ => (Return tt, with_fs (delete p) w)
  | None => (Throw (ENOENT p), w)
  end.

(** the entries directly inside [dir] *)
Definition readdirSync (dir : string) : M (list string) := fun w =>
  (Return (omap (fun '(p, _) =>
             match strip_prefix (dir +:+ "/") p with
             | Some f => if bool_decide (length (split_on "/" f) = 1%nat)
                         then Some f else None
             | None => None
             end) (map_to_list (fs w))), w).

(** *** browser, clock, random *)

Definition getBrowser : M unit := fun w =>
  if launch_ok w then (Return tt, with_browsers (S (browsers w)) w)
  else (Throw LaunchError, w).

Definition browser_close : M unit := fun w =>
  (Return tt, with_browsers (pred (browsers w)) w).

(** The page of the site at the given viewport, loaded and settled. *)
Definition getPage (viewport : string) : M unit := fun w =>
  if goto_ok w then (Return tt, w) else (Throw NavigationError, w).

(** [page.screenshot({ path, fullPage: true })]: the image is returned and,
    when a path is given, also written there. *)
Definition page_screenshot (path : option string) : M Buffer := fun w =>
  match page w (shots w) with
  | Some img =>
      (Return img,
       with_shots (S (shots w))
         (match path with
          | Some p => with_fs (insert p img) w
          | None => w
          end))
  | None => (Throw CaptureError, with_shots (S (shots w)) w)
  end.

Definition Math_random : M Js.number := fun w =>
  (Return (random w (draws w)), with_draws (S (draws w)) w).

(** [new Date().toISOString().replace(/[:.]/g, '-').slice(0, 19)] *)
Definition dashed (s : string) : string :=
  string_of_list_ascii
    (map (fun c => if Ascii.eqb c ":" || Ascii.eqb c "." then "-"%char else c)
         (list_ascii_of_string s)).

Definition timestamp : M string := fun w =>
  (Return (slice0 19 (dashed (clock w (ticks w)))), with_ticks (S (ticks w)) w).

(** ** The server *)

Definition OUTPUT_DIR : string := "/Users/yuripetrinim5/Downloads".
Definition REPORTS_DIR : string := join OUTPUT_DIR "symbiotic-reports".
Definition BASELINES_DIR : string := join REPORTS_DIR "baselines".
Definition DIFFS_DIR : string := join REPORTS_DIR "diffs".

(** The options object of the baseline tools, after [JSON.parse]; an absent
    property is [None] and takes the default of the destructuring pattern. *)
Record Args := mkArgs {
  arg_name : option string;
  arg_viewport : option string;
  arg_threshold : option Js.number
}.

(** [{}] *)
Definition no_args : Args := mkArgs None None None.

(** *** Baseline comparison *)

Definition saveBaseline (args : Args) : M Obj :=
  let name := default "default" (arg_name args) in
  let viewport := default "desktop" (arg_viewport args) in
  _ ← getBrowser;
  try_finally
    (_ ← getPage viewport;
     let filename := "baseline_" +:+ name +:+ "_" +:+ viewport +:+ ".png" in
     let filepath := join BASELINES_DIR filename in
     _ ← page_screenshot (Some filepath);
     mret [("success", VBool true); ("baseline", VStr filepath);
           ("name", VStr name); ("viewport", VStr viewport)])
    browser_close.

Definition compareToBaseline (args : Args) : M Obj :=
  let name := default "default" (arg_name args) in
  let viewport := default "desktop" (arg_viewport args) in
  let baselinePath :=
    join BASELINES_DIR ("baseline_" +:+ name +:+ "_" +:+ viewport +:+ ".png") in
  found ← existsSync baselinePath;
  if negb found then
    mret [("success", VBool false);
          ("error", VStr ("Baseline not found: " +:+ name +:+ ". Run save_baseline first."))]
  else
    _ ← getBrowser;
    try_finally
      (_ ← getPage viewport;
       ts ← timestamp;
       let currentPath :=
         join REPORTS_DIR ("current_" +:+ name +:+ "_" +:+ viewport +:+ "_" +:+ ts +:+ ".png") in
       _ ← page_screenshot (Some currentPath);
       mret [("success", VBool true); ("baseline", VStr baselinePath);
             ("current", VStr currentPath);
             ("message", VStr "Compare images manually or use image diff tool")])
      browser_close.

(** *** Visual regression *)

(** [buf[idx]]; [None] is [undefined] *)
Definition Buffer_at (buf : Buffer) (idx : Js.number) : option byte :=
  i ← Js.to_index idx; buf !! i.

(** The sampling loop
    [for (let i = 0; i < sampleSize; i += 4) { ... pixelDiffs++ }].
    The loop variable grows by 4 and stops the loop at [sampleSize], so
    [sampleSize] units of fuel are never used up ([sample_loop_fuel]). *)
Fixpoint sample_loop (fuel : nat) (baselineBuffer currentBuffer : Buffer)
    (sampleSize i pixelDiffs : nat) : M nat :=
  match fuel with
  | O => mret pixelDiffs
  | S fuel' =>
      if (i <? sampleSize)%nat then
        r ← Math_random;
        let idx :=
          Js.Math_floor
            (r * Js.of_nat (Nat.min (length baselineBuffer) (length currentBuffer)))%float in
        let pixelDiffs' :=
          if bool_decide (Buffer_at baselineBuffer idx <> Buffer_at currentBuffer idx)
          then S pixelDiffs else pixelDiffs in
        sample_loop fuel' baselineBuffer currentBuffer sampleSize (i + 4) pixelDiffs'
      else mret pixelDiffs
  end.

(** [Math.min(baselineBuffer.length, currentBuffer.length, 10000)] *)
Definition sampleSizeOf (baselineBuffer currentBuffer : Buffer) : nat :=
  Nat.min (length baselineBuffer) (Nat.min (length currentBuffer) 10000).

(** [(pixelDiffs / (sampleSize / 4)) * 100] *)
Definition diffPercentageOf (pixelDiffs sampleSize : nat) : Js.number :=
  ((Js.of_nat pixelDiffs / (Js.of_nat sampleSize / 4)) * 100)%float.

(** [Math.abs(baselineBuffer.length - currentBuffer.length) / baselineBuffer.length] *)
Definition sizeDiffOf (baselineBuffer currentBuffer : Buffer) : Js.number :=
  (PrimFloat.abs (Js.of_nat (length baselineBuffer) - Js.of_nat (length currentBuffer))
   / Js.of_nat (length baselineBuffer))%float.

Definition visualRegression (args : Args) : M Obj :=
  let name := default "default" (arg_name args) in
  let viewport := default "desktop" (arg_viewport args) in
  let threshold := default 0.1%float (arg_threshold args) in
  let baselinePath :=
    join BASELINES_DIR ("baseline_" +:+ name +:+ "_" +:+ viewport +:+ ".png") in
  _ ← getBrowser;
  try_finally
    (_ ← getPage viewport;
     ts ← timestamp;
     let currentPath :=
       join DIFFS_DIR ("current_" +:+ name +:+ "_" +:+ viewport +:+ "_" +:+ ts +:+ ".png") in
     _ ← page_screenshot (Some currentPath);
     found ← existsSync baselinePath;
     if negb found then
       (* No baseline - save current as baseline *)
       data ← readFileSync currentPath;
       _ ← writeFileSync baselinePath data;
       mret [("success", VBool true); ("status", VStr "baseline_created");
             ("baseline", VStr baselinePath);
             ("message", VStr "No baseline existed. Current screenshot saved as baseline.")]
     else
       (* Read both images and compare *)
       baselineBuffer ← readFileSync baselinePath;
       currentBuffer ← readFileSync currentPath;
       (* Simple hash comparison first *)
       let baselineHash := MD5.digest_hex baselineBuffer in
       let currentHash := MD5.digest_hex currentBuffer in
       if bool_decide (baselineHash = currentHash) then
         _ ← unlinkSync currentPath;
         mret [("success", VBool true); ("status", VStr "identical");
               ("message", VStr "Screenshots are identical")]
       else
         comparison ← page_screenshot None;
         let sizeDiff := sizeDiffOf baselineBuffer currentBuffer in
         let sampleSize := sampleSizeOf baselineBuffer currentBuffer in
         pixelDiffs ← sample_loop sampleSize baselineBuffer currentBuffer sampleSize 0 0;
         let diffPercentage := diffPercentageOf pixelDiffs sampleSize in
         let passed := (diffPercentage <=? threshold)%float in
         ts' ← timestamp;
         let diffPath :=
           join DIFFS_DIR ("diff_" +:+ name +:+ "_" +:+ viewport +:+ "_" +:+ ts' +:+ ".png") in
         mret [("success", VBool true);
               ("status", VStr (if passed then "passed" else "failed"));
               ("diffPercentage", VNum (Js.Math_round (diffPercentage * 100) / 100)%float);
               ("threshold", VNum threshold);
               ("baseline", VStr baselinePath);
               ("current", VStr currentPath);
               ("diff", VStr diffPath);
               ("sizeDiff", VStr (Js.toFixed2 (sizeDiff * 100)%float +:+ "%"))])
    browser_close.

Definition updateBaseline (args : Args) : M Obj :=
  let name := default "default" (arg_name args) in
  let viewport := default "desktop" (arg_viewport args) in
  _ ← getBrowser;
  try_finally
    (_ ← getPage viewport;
     let baselinePath :=
       join BASELINES_DIR ("baseline_" +:+ name +:+ "_" +:+ viewport +:+ ".png") in
     _ ← page_screenshot (Some baselinePath);
     mret [("success", VBool true); ("baseline", VStr baselinePath);
           ("message", VStr "Baseline updated")])
    browser_close.

Definition listBaselines (args : Args) : M Obj :=
  entries ← readdirSync BASELINES_DIR;
  let files := filter (fun f => endsWith f ".png" = true) entries in
  mret [("success", VBool true);
        ("baselines",
         VArr (map (fun f =>
                 VObj [("name", VStr (replace_first ".png" "" (replace_first "baseline_" "" f)));
                       ("path", VStr (join BASELINES_DIR f))]) files));
        ("count", VNum (Js.of_nat (length files)))].

(** *** Tool table and dispatcher *)

Section Dispatch.

(** The entries of the tool table besides the baseline tools (screenshots,
    audits, reports, ...), by name.  The table lists the baseline tools
    among them; the position matters to the order of the names reported as
    available only. *)
Variable other_tools : list (string * (Args -> M Obj)).

(** [JSON.parse] of the options argument: the options or a [SyntaxError]. *)
Variable JSON_parse : string -> Error + Args.

Definition tools : list (string * (Args -> M Obj)) :=
  [ ("save_baseline", saveBaseline);
    ("compare_baseline", compareToBaseline);
    ("visual_regression", visualRegression);
    ("update_baseline", updateBaseline);
    ("list_baselines", listBaselines) ] ++ other_tools.

(** Property names every object literal inherits from [Object.prototype]. *)
Definition Object_prototype : list string :=
  [ "constructor"; "hasOwnProperty"; "isPrototypeOf"; "propertyIsEnumerable";
    "toLocaleString"; "toString"; "valueOf"; "__proto__";
    "__defineGetter__"; "__defineSetter__"; "__lookupGetter__"; "__lookupSetter__" ].

Fixpoint assoc {A} (k : string) (l : list (string * A)) : option A :=
  match l with
  | [] => None
  | (k', v) :: l' => if String.eqb k k' then Some v else assoc k l'
  end.

(** [catch (err) { return { error: err.message, stack: err.stack?.split('\n').slice(0, 3) } }] *)
Definition report_error (err : Error) : M Obj := fun w =>
  (Return (("error", VStr (err_message w err)) ::
           match err_stack w err with
           | Some s => [("stack", VArr (map VStr (firstn 3 (split_on "010" s))))]
           | None => []
           end), w).

Definition handleTool (name : string) (args : Args) : M Obj :=
  match assoc name tools with
  | Some fn => try_catch (fn args) report_error
  | None =>
      if bool_decide (name ∈ Object_prototype) then
        (* tools[name] is an inherited property: it has no fn *)
        try_catch (throw (TypeError "tools[name].fn is not a function")) report_error
      else
        mret [("error", VStr ("Unknown tool: " +:+ name));
              ("available", VArr (map (fun t => VStr (fst t)) tools))]
  end.

(** *** Command line *)

(** How the process ends. *)
Inductive Exit :=
  | Printed (result : Obj)   (* console.log(JSON.stringify(result)) *)
  | Help                     (* the usage text *)
  | Logged (err : Error)     (* console.error('Error:', err) *)
  | Uncaught (err : Error).  (* an exception nobody caught *)

Definition main (argv : list string) : World -> Exit * World := fun w =>
  let command := argv !! 2%nat in
  match (match argv !! 3%nat with
         | Some text => if bool_decide (text = "") then inr no_args else JSON_parse text
         | None => inr no_args
         end) with
  | inl err => (Uncaught err, w)
  | inr args =>
      match command with
      | None => (Help, w)
      | Some command =>
          if bool_decide (command = "help") || bool_decide (command = "") then (Help, w)
          else match handleTool command args w with
               | (Return result, w') => (Printed result, w')
               | (Throw err, w') => (Logged err, w')
               end
      end
  end.

End Dispatch.

(** ** Vocabulary of the properties *)

Definition name_of (args : Args) : string := default "default" (arg_name args).
Definition viewport_of (args : Args) : string := default "desktop" (arg_viewport args).
Definition threshold_of (args : Args) : Js.number := default 0.1%float (arg_threshold args).

(** The baseline store key of [(name, viewport)]: the file the three
    baseline-writing tools compute. *)
Definition baseline_path (args : Args) : string :=
  join BASELINES_DIR ("baseline_" +:+ name_of args +:+ "_" +:+ viewport_of args +:+ ".png").

(** [get(name, viewport)] of the baseline store *)
Definition baseline_of (args : Args) (w : World) : option Buffer :=
  fs w !! baseline_path args.

(** The time stamp the [k]-th next clock reading yields. *)
Definition stamp (k : nat) (w : World) : string :=
  slice0 19 (dashed (clock w (k + ticks w))).

Definition current_path (args : Args) (w : World) : string :=
  join DIFFS_DIR ("current_" +:+ name_of args +:+ "_" +:+ viewport_of args +:+ "_"
                  +:+ stamp 0 w +:+ ".png").

Definition diff_path (args : Args) (w : World) : string :=
  join DIFFS_DIR ("diff_" +:+ name_of args +:+ "_" +:+ viewport_of args +:+ "_"
                  +:+ stamp 1 w +:+ ".png").

(** The number of mismatching samples the sampling loop counts for the two
    buffers with the random numbers of [w], and the difference percentage
    computed from it (before any rounding). *)
Definition pixelDiffs_in (baselineBuffer currentBuffer : Buffer) (w : World) : nat :=
  let sampleSize := sampleSizeOf baselineBuffer currentBuffer in
  match sample_loop sampleSize baselineBuffer currentBuffer sampleSize 0 0 w with
  | (Return n, _) => n
  | (Throw _, _) => 0
  end.

Definition diffPercentage_in (baselineBuffer currentBuffer : Buffer) (w : World) : Js.number :=
  diffPercentageOf (pixelDiffs_in baselineBuffer currentBuffer w)
                   (sampleSizeOf baselineBuffer currentBuffer).

(** The random numbers consumed by the sampling loop. *)
Definition draws_after (baselineBuffer currentBuffer : Buffer) (w : World) : nat :=
  let sampleSize := sampleSizeOf baselineBuffer currentBuffer in
  draws (snd (sample_loop sampleSize baselineBuffer currentBuffer sampleSize 0 0 w)).

(** [0 <= x <= 100] on numbers; false for NaN. *)
Definition in_percent_range (x : Js.number) : bool :=
  ((0 <=? x) && (x <=? 100))%float.

(** The same options with another threshold. *)
Definition with_threshold (t : Js.number) (args : Args) : Args :=
  mkArgs (arg_name args) (arg_viewport args) (Some t).

(** *** The three result shapes of [visualRegression] *)

Definition created_result (args : Args) : Obj :=
  [("success", VBool true); ("status", VStr "baseline_created");
   ("baseline", VStr (baseline_path args));
   ("message", VStr "No baseline existed. Current screenshot saved as baseline.")].

Definition identical_result : Obj :=
  [("success", VBool true); ("status", VStr "identical");
   ("message", VStr "Screenshots are identical")].

Definition compared_result (args : Args) (w : World)
    (baselineBuffer currentBuffer : Buffer) : Obj :=
  let diffPercentage := diffPercentage_in baselineBuffer currentBuffer w in
  [("success", VBool true);
   ("status", VStr (if (diffPercentage <=? threshold_of args)%float then "passed" else "failed"));
   ("diffPercentage", VNum (Js.Math_round (diffPercentage * 100) / 100)%float);
   ("threshold", VNum (threshold_of args));
   ("baseline", VStr (baseline_path args));
   ("current", VStr (current_path args w));
   ("diff", VStr (diff_path args w));
   ("sizeDiff", VStr (Js.toFixed2 (sizeDiffOf baselineBuffer currentBuffer * 100)%float +:+ "%"))].

(** The world a run of [visualRegression] leaves behind, by result shape. *)
Definition after_created (args : Args) (w : World) (cur : Buffer) : World :=
  with_shots (S (shots w)) (with_ticks (S (ticks w))
    (with_fs (fun m => <[baseline_path args := cur]> (<[current_path args w := cur]> m)) w)).

Definition after_identical (args : Args) (w : World) (cur : Buffer) : World :=
  with_shots (S (shots w)) (with_ticks (S (ticks w))
    (with_fs (fun m => delete (current_path args w) (<[current_path args w := cur]> m)) w)).

Definition after_compared (args : Args) (w : World) (b cur : Buffer) : World :=
  with_draws (draws_after b cur w)
    (with_shots (S (S (shots w))) (with_ticks (S (S (ticks w)))
       (with_fs (insert (current_path args w) cur) w))).

(** The returning runs of [visualRegression]. *)
Inductive Returned (args : Args) (w : World) : Obj -> World -> Prop :=
  | Returned_created cur :
      page w (shots w) = Some cur ->
      baseline_of args w = None ->
      Returned args w (created_result args) (after_created args w cur)
  | Returned_identical b cur :
      page w (shots w) = Some cur ->
      baseline_of args w = Some b ->
      MD5.digest_hex b = MD5.digest_hex cur ->
      Returned args w identical_result (after_identical args w cur)
  | Returned_compared b cur cmp :
      page w (shots w) = Some cur ->
      baseline_of args w = Some b ->
      MD5.digest_hex b <> MD5.digest_hex cur ->
      page w (S (shots w)) = Some cmp ->
      Returned args w (compared_result args w b cur) (after_compared args w b cur).

(** ** Scenarios *)

(** [n] copies of the byte [b] *)
Definition bytes (n : N) (b : byte) : Buffer := N.iter n (cons b) [].

(** A world in which the browser starts and the site loads, with the given
    files, screenshots and random numbers. *)
Definition quiet_world (files : gmap string Buffer)
    (captures : nat -> option Buffer) (rnd : nat -> Js.number) : World :=
  mkWorld files true true captures 0 (fun _ => "2025-03-01T09:30:00.000Z") 0
          rnd 0 (fun _ => "") (fun _ => None) 0.

(** Two different 128-byte files with the same MD5 digest
    (Wang and Yu, 2005). *)
Definition collision_a : Buffer :=
  [ xd1; x31; xdd; x02; xc5; xe6; xee; xc4; x69; x3d; x9a; x06; x98; xaf; xf9; x5c;
    x2f; xca; xb5; x87; x12; x46; x7e; xab; x40; x04; x58; x3e; xb8; xfb; x7f; x89;
    x55; xad; x34; x06; x09; xf4; xb3; x02; x83; xe4; x88; x83; x25; x71; x41; x5a;
    x08; x51; x25; xe8; xf7; xcd; xc9; x9f; xd9; x1d; xbd; xf2; x80; x37; x3c; x5b;
    xd8; x82; x3e; x31; x56; x34; x8f; x5b; xae; x6d; xac; xd4; x36; xc9; x19; xc6;
    xdd; x53; xe2; xb4; x87; xda; x03; xfd; x02; x39; x63; x06; xd2; x48; xcd; xa0;
    xe9; x9f; x33; x42; x0f; x57; x7e; xe8; xce; x54; xb6; x70; x80; xa8; x0d; x1e;
    xc6; x98; x21; xbc; xb6; xa8; x83; x93; x96; xf9; x65; x2b; x6f; xf7; x2a; x70 ].

Definition collision_b : Buffer :=
  [ xd1; x31; xdd; x02; xc5; xe6; xee; xc4; x69; x3d; x9a; x06; x98; xaf; xf9; x5c;
    x2f; xca; xb5; x07; x12; x46; x7e; xab; x40; x04; x58; x3e; xb8; xfb; x7f; x89;
    x55; xad; x34; x06; x09; xf4; xb3; x02; x83; xe4; x88; x83; x25; xf1; x41; x5a;
    x08; x51; x25; xe8; xf7; xcd; xc9; x9f; xd9; x1d; xbd; x72; x80; x37; x3c; x5b;
    xd8; x82; x3e; x31; x56; x34; x8f; x5b; xae; x6d; xac; xd4; x36; xc9; x19; xc6;
    xdd; x53; xe2; x34; x87; xda; x03; xfd; x02; x39; x63; x06; xd2; x48; xcd; xa0;
    xe9; x9f; x33; x42; x0f; x57; x7e; xe8; xce; x54; xb6; x70; x80; x28; x0d; x1e;
    xc6; x98; x21; xbc; xb6; xa8; x83; x93; x96; xf9; x65; xab; x6f; xf7; x2a; x70 ].

(** The stored baseline and the fresh snapshot collide. *)
Definition collision_world : World :=
  quiet_world {[ baseline_path no_args := collision_a ]}
              (fun _ => Some collision_b) (fun _ => 0.5%float).

(** A four-byte baseline and a snapshot that differs in its last byte; the
    single sample lands on that byte. *)
Definition small_baseline : Buffer := [x89; x50; x4e; x47].
Definition small_current : Buffer := [x89; x50; x4e; x00].
Definition small_world : World :=
  quiet_world {[ baseline_path no_args := small_baseline ]}
              (fun _ => Some small_current) (fun _ => 0.75%float).

(** The snapshot is the baseline plus one byte; the single sample lands on
    an unchanged byte. *)
Definition longer_current : Buffer := [x89; x50; x4e; x47; x0d].
Definition longer_world : World :=
  quiet_world {[ baseline_path no_args := small_baseline ]}
              (fun _ => Some longer_current) (fun _ => 0.5%float).

(** The page did not change since the baseline was taken. *)
Definition unchanged_world : World :=
  quiet_world {[ baseline_path no_args := small_baseline ]}
              (fun _ => Some small_baseline) (fun _ => 0.5%float).

(** Nothing stored yet. *)
Definition fresh_world : World :=
  quiet_world ∅ (fun _ => Some small_current) (fun _ => 0.5%float).

(** Seventy bytes each, different everywhere: eighteen samples are taken and
    all of them mismatch. *)
Definition over_world : World :=
  quiet_world {[ baseline_path no_args := bytes 70 x00 ]}
              (fun _ => Some (bytes 70 xff)) (fun _ => 0.5%float).

(** An empty baseline file. *)
Definition empty_baseline_world : World :=
  quiet_world {[ baseline_path no_args := [] ]}
              (fun _ => Some (bytes 70 xff)) (fun _ => 0.5%float).

(** The snapshot is one byte longer than a 25000-byte baseline. *)
Definition grown_world : World :=
  quiet_world {[ baseline_path no_args := bytes 25000 x00 ]}
              (fun _ => Some (bytes 25001 x00)) (fun _ => 0%float).

(** 3900 bytes each, different in the first byte only; of the 975 samples
    exactly the first one lands on it. *)
Definition one_in_975_baseline : Buffer := bytes 3900 x00.
Definition one_in_975_current : Buffer := xff :: bytes 3899 x00.
Definition one_in_975_world : World :=
  quiet_world {[ baseline_path no_args := one_in_975_baseline ]}
              (fun _ => Some one_in_975_current)
              (fun k => if (k =? 0)%nat then 0%float else 0.5%float).

(** A stand-in for [JSON.parse] that accepts the empty object only. *)
Definition parse_empty_object (text : string) : Error + Args :=
  if bool_decide (text = "{}") then inr no_args else inl (SyntaxError text).

(** * Further tools of the server *)

(** ** Vocabulary of the further properties *)
(** ** Vocabulary of the further properties *)

(** Does the character occur in the string? *)
Fixpoint has_char (c : ascii) (s : string) : bool :=
  match s with
  | EmptyString => false
  | String c' s' => Ascii.eqb c' c || has_char c s'
  end.

(** A name or viewport without path separator and without dot. *)
Definition plain (s : string) : Prop :=
  has_char "/" s = false /\ has_char "." s = false.


(** The entry [listBaselines] reports for the baseline of a key. *)
Definition listed_baseline (args : Args) : Value :=
  VObj [("name", VStr (name_of args +:+ "_" +:+ viewport_of args));
        ("path", VStr (baseline_path args))].

(** The world after a screenshot [img] was written to [path]. *)
Definition after_capture_to (path : string) (img : Buffer) (w : World) : World :=
  with_shots (S (shots w)) (with_fs (insert path img) w).

(** A world in which every screenshot fails. *)
Definition no_capture_world : World :=
  quiet_world ∅ (fun _ => None) (fun _ => 0.5%float).

(** ** Metrics history (track_metrics, get_history) *)

Definition HISTORY_DIR : string := join REPORTS_DIR "history".

(** What [page.evaluate] reports about the loaded page. *)
Record PageCounts := mkPageCounts {
  pc_timestamp : string;
  pc_domElements : nat;
  pc_images : nat;
  pc_scripts : nat;
  pc_stylesheets : nat;
  pc_links : nat
}.

(** One entry of a history file. *)
Record Metrics := mkMetrics {
  m_counts : PageCounts;
  m_loadTime : Z;
  m_name : string
}.

(** What one call observes: the milliseconds between the two readings of
    [Date.now()] around [page.goto], and the counts of the page. *)
Record Visit := mkVisit {
  visit_loadTime : Z;
  visit_counts : PageCounts
}.

(** The options of the history tools. *)
Record HistoryArgs := mkHistoryArgs {
  h_name : option string;
  h_limit : option Z
}.

Definition metrics_value (m : Metrics) : Value :=
  VObj [("timestamp", VStr (pc_timestamp (m_counts m)));
        ("domElements", VNum (Js.of_nat (pc_domElements (m_counts m))));
        ("images", VNum (Js.of_nat (pc_images (m_counts m))));
        ("scripts", VNum (Js.of_nat (pc_scripts (m_counts m))));
        ("stylesheets", VNum (Js.of_nat (pc_stylesheets (m_counts m))));
        ("links", VNum (Js.of_nat (pc_links (m_counts m))));
        ("loadTime", VNum (Js.of_Z (m_loadTime m)));
        ("name", VStr (m_name m))].

(** [l.slice(start)]: a negative start counts from the end. *)
Definition slice_from {A} (start : Z) (l : list A) : list A :=
  let len := Z.of_nat (length l) in
  let k := if (start <? 0)%Z then Z.max (len + start) 0 else Z.min start len in
  skipn (Z.to_nat k) l.


(** [browser.newPage(...)] followed by [page.goto(SITE_URL)], without the
    settling of [getPage]. *)
Definition newPage_goto : M unit := fun w =>
  if goto_ok w then (Return tt, w) else (Throw NavigationError, w).

Section History.

(** [JSON.stringify(history, null, 2)] as the bytes written, and
    [JSON.parse] of the text read back. *)
Variable stringify : list Metrics -> Buffer.
Variable parse : Buffer -> Error + list Metrics.

Definition history_file (name : string) : string :=
  join HISTORY_DIR ("metrics_" +:+ name +:+ ".json").


Definition getMetricsHistory (args : HistoryArgs) : M Obj :=
  let name := default "default" (h_name args) in
  let limit := default 20%Z (h_limit args) in
  let historyFile := join HISTORY_DIR ("metrics_" +:+ name +:+ ".json") in
  found ← existsSync historyFile;
  if negb found then
    mret [("success", VBool false);
          ("error", VStr "No history found. Run track_metrics first.")]
  else
    text ← readFileSync historyFile;
    match parse text with
    | inl err => throw err
    | inr history =>
        mret [("success", VBool true);
              ("history", VArr (map metrics_value (slice_from (- limit) history)));
              ("total", VNum (Js.of_nat (length history)))]
    end.


End History.

(** The entry a call of [trackMetrics] records. *)
Definition entry_of (visit : Visit) (args : HistoryArgs) : Metrics :=
  mkMetrics (visit_counts visit) (visit_loadTime visit) (default "default" (h_name args)).



(** A sample visit, and a stand-in codec that knows one history only. *)
Definition sample_visit : Visit :=
  mkVisit 420 (mkPageCounts "2025-03-01T09:30:00.000Z" 812 14 6 3 41).

Definition sample_history : list Metrics :=
  [entry_of sample_visit (mkHistoryArgs None None)].

Definition sample_stringify (h : list Metrics) : Buffer := [x5b; x5d].
Definition sample_parse (text : Buffer) : Error + list Metrics := inr sample_history.

Definition tracked_world : World :=
  quiet_world {[ history_file "default" := sample_stringify sample_history ]}
              (fun _ => None) (fun _ => 0.5%float).



(** ** Screenshot tools *)

Definition VIEWPORTS : list (string * (Z * Z)) :=
  [ ("desktop", (1440, 900)%Z);
    ("laptop", (1280, 800)%Z);
    ("tablet", (768, 1024)%Z);
    ("mobile", (375, 812)%Z);
    ("mobile-landscape", (812, 375)%Z);
    ("4k", (2560, 1440)%Z);
    ("ultrawide", (3440, 1440)%Z) ].

(** [VIEWPORTS[viewport]]: an entry of the table, a property inherited
    from [Object.prototype], or [undefined]. *)
Inductive TableEntry :=
  | Own (size : Z * Z)
  | Inherited
  | Undefined.

Definition VIEWPORTS_at (viewport : string) : TableEntry :=
  match assoc viewport VIEWPORTS with
  | Some size => Own size
  | None => if bool_decide (viewport ∈ Object_prototype) then Inherited else Undefined
  end.

(** [screenshotHero({ viewport, annotate, scrollTo })].  [annotate] and
    [scrollTo] drive scripts inside the page only.  The clip is read from
    [VIEWPORTS[viewport]] after the file name is made and before the
    screenshot is taken; an inherited property has no [width], so the clip
    is left to [page.screenshot]. *)
Definition screenshotHero (viewport : option string) : M Obj :=
  let viewport := default "desktop" viewport in
  _ ← getBrowser;
  try_finally
    (_ ← getPage viewport;
     ts ← timestamp;
     let filename := "hero_" +:+ viewport +:+ "_" +:+ ts +:+ ".png" in
     let filepath := join REPORTS_DIR filename in
     _ ← match VIEWPORTS_at viewport with
         | Undefined => throw (TypeError "Cannot read properties of undefined (reading 'width')")
         | _ => mret tt
         end;
     _ ← page_screenshot (Some filepath);
     mret [("success", VBool true); ("file", VStr filepath); ("viewport", VStr viewport)])
    browser_close.

(** [screenshotFull({ viewport, highlightSections })] *)
Definition screenshotFull (viewport : option string) : M Obj :=
  let viewport := default "desktop" viewport in
  _ ← getBrowser;
  try_finally
    (_ ← getPage viewport;
     ts ← timestamp;
     let filename := "full_" +:+ viewport +:+ "_" +:+ ts +:+ ".png" in
     let filepath := join REPORTS_DIR filename in
     _ ← page_screenshot (Some filepath);
     mret [("success", VBool true); ("file", VStr filepath); ("viewport", VStr viewport)])
    browser_close.

(** [for (const vp of viewports) { ... results.push({ viewport: vp, file: filepath }) }] *)
Fixpoint comparison_loop (viewports : list string) (results : list Value)
    : M (list Value) :=
  match viewports with
  | [] => mret results
  | vp :: rest =>
      _ ← newPage_goto;
      ts ← timestamp;
      let filename := "compare_" +:+ vp +:+ "_" +:+ ts +:+ ".png" in
      let filepath := join REPORTS_DIR filename in
      _ ← page_screenshot (Some filepath);
      comparison_loop rest
        (results ++ [VObj [("viewport", VStr vp); ("file", VStr filepath)]])
  end.

Definition screenshotComparison (viewports : option (list string)) : M Obj :=
  let viewports := default ["desktop"; "tablet"; "mobile"] viewports in
  _ ← getBrowser;
  try_finally
    (results ← comparison_loop viewports [];
     mret [("success", VBool true); ("comparisons", VArr results)])
    browser_close.

(** ** Scores *)

(** What [page.evaluate] gathers for the scores. *)
Record PageFacts := mkPageFacts {
  loadTime : Js.number;
  domElements : nat;
  imagesWithoutAlt : nat;
  inputsWithoutLabel : nat;
  h1Count : nat;
  httpsUsed : bool;
  noDoctype : bool;
  hasViewport : bool;
  hasTitle : bool;
  hasDescription : bool;
  hasCanonical : bool;
  hasOG : bool
}.

(** The local object [scores].  The scores are whole numbers far below
    2^53, on which the arithmetic of the source is exact. *)
Record Scores := mkScores {
  performance : Z;
  accessibility : Z;
  bestPractices : Z;
  seo : Z
}.

(** [totalTime] is the difference of the two readings of [Date.now()]. *)
Definition scores_of (metrics : PageFacts) (totalTime : Z) : Scores :=
  mkScores
    (Z.max 0 (100 - totalTime / 50 - Z.of_nat (domElements metrics) / 100))
    (Z.max 0 (100 - Z.of_nat (imagesWithoutAlt metrics) * 10
                  - Z.of_nat (inputsWithoutLabel metrics) * 10
                  - (if negb (h1Count metrics =? 1)%nat then 10 else 0)))
    ((if httpsUsed metrics then 34 else 0) + (if negb (noDoctype metrics) then 33 else 0)
     + (if hasViewport metrics then 33 else 0))
    ((if hasTitle metrics then 25 else 0) + (if hasDescription metrics then 25 else 0)
     + (if hasCanonical metrics then 25 else 0) + (if hasOG metrics then 25 else 0)).

Definition getColor (score : Z) : string :=
  if (90 <=? score)%Z then "🟢" else if (50 <=? score)%Z then "🟡" else "🔴".

(** [Math.round((performance + accessibility + bestPractices + seo) / 4)]:
    a quarter of a whole number, ties rounded up. *)
Definition overall_of (scores : Scores) : Z :=
  (performance scores + accessibility scores + bestPractices scores + seo scores + 2) / 4.

Definition score_entry (score : Z) : Value :=
  VObj [("score", VNum (Js.of_Z score)); ("color", VStr (getColor score))].

Definition details_of (metrics : PageFacts) : Value :=
  VObj [("performance",
         VObj [("loadTime", VNum (loadTime metrics));
               ("domElements", VNum (Js.of_nat (domElements metrics)))]);
        ("accessibility",
         VObj [("imagesWithoutAlt", VNum (Js.of_nat (imagesWithoutAlt metrics)));
               ("inputsWithoutLabel", VNum (Js.of_nat (inputsWithoutLabel metrics)));
               ("h1Count", VNum (Js.of_nat (h1Count metrics)))]);
        ("bestPractices",
         VObj [("httpsUsed", VBool (httpsUsed metrics));
               ("noDoctype", VBool (noDoctype metrics));
               ("hasViewport", VBool (hasViewport metrics))]);
        ("seo",
         VObj [("hasTitle", VBool (hasTitle metrics));
               ("hasDescription", VBool (hasDescription metrics));
               ("hasCanonical", VBool (hasCanonical metrics));
               ("hasOG", VBool (hasOG metrics))])].

Definition calculateScores (metrics : PageFacts) (totalTime : Z)
    (viewport : option string) : M Obj :=
  let viewport := default "desktop" viewport in
  _ ← getBrowser;
  try_finally
    (_ ← getPage viewport;
     let scores := scores_of metrics totalTime in
     mret [("success", VBool true);
           ("scores",
            VObj [("performance", score_entry (performance scores));
                  ("accessibility", score_entry (accessibility scores));
                  ("bestPractices", score_entry (bestPractices scores));
                  ("seo", score_entry (seo scores))]);
           ("overall", VNum (Js.of_Z (overall_of scores)));
           ("details", details_of metrics)])
    browser_close.

(** ** Breakpoint finder *)

(** What [page.evaluate] returns at one width: the layout object and its
    [JSON.stringify] text. *)
Record Layout := mkLayout {
  layout_changes : Value;
  layout_key : string
}.

(** [for (let width = minWidth; width <= maxWidth; width += step) { ... }]:
    [k] counts the widths laid out so far and [layouts k] is what the page
    reports at the k-th of them.  The widths are whole numbers below 2^53.
    Without fuel left the loop has not ended: [None]. *)
Fixpoint breakpoint_loop (fuel : nat) (layouts : nat -> Layout) (k : nat)
    (width maxWidth step : Z) (lastLayout : option string)
    (breakpoints : list Value) : M (option (list Value * nat)) :=
  match fuel with
  | O => mret None
  | S fuel' =>
      if (width <=? maxWidth)%Z then
        let layout := layouts k in
        let layoutKey := layout_key layout in
        breakpoints ←
          (if match lastLayout with
              | Some l => negb (String.eqb l "") && negb (String.eqb layoutKey l)
              | None => false
              end
           then
             (* Capture screenshot at breakpoint *)
             ts ← timestamp;
             let filename := "breakpoint_" +:+ pretty width +:+ "_" +:+ ts +:+ ".png" in
             let filepath := join REPORTS_DIR filename in
             _ ← page_screenshot (Some filepath);
             mret (breakpoints ++
                   [VObj [("width", VNum (Js.of_Z width));
                          ("changes", layout_changes layout);
                          ("screenshot", VStr filepath)]])
           else mret breakpoints);
        breakpoint_loop fuel' layouts (S k) (width + step) maxWidth step
          (Some layoutKey) breakpoints
      else mret (Some (breakpoints, k))
  end.

(** [Math.ceil((maxWidth - minWidth) / step)]: on whole numbers below 2^53
    the rounded quotient lies between the same two integers as the exact
    one; a division by zero gives an infinity. *)
Definition tested_of (minWidth maxWidth step : Z) : Js.number :=
  if (step =? 0)%Z then
    (Js.of_Z (maxWidth - minWidth) / 0)%float
  else Js.of_Z (- ((minWidth - maxWidth) / step)).

Definition findBreakpoints (fuel : nat) (layouts : nat -> Layout)
    (minWidth maxWidth step : option Z) : M (option Obj) :=
  let minWidth := default 320%Z minWidth in
  let maxWidth := default 1920%Z maxWidth in
  let step := default 50%Z step in
  _ ← getBrowser;
  try_finally
    (_ ← newPage_goto;
     r ← breakpoint_loop fuel layouts 0 minWidth maxWidth step None [];
     match r with
     | Some (breakpoints, _) =>
         mret (Some [("success", VBool true);
                     ("breakpoints", VArr breakpoints);
                     ("tested", VNum (tested_of minWidth maxWidth step))])
     | None => mret None
     end)
    browser_close.

(** A world in which every screenshot succeeds. *)
Definition steady_world : World :=
  quiet_world ∅ (fun _ => Some [x89; x50; x4e; x47]) (fun _ => 0.5%float).

(** A page that looks different at every width. *)
Definition restless_layouts (k : nat) : Layout :=
  mkLayout (VObj [("bodyWidth", VNum (Js.of_nat k))]) (pretty k).

(** The files the screenshot tools write. *)
Definition full_path (viewport : string) (w : World) : string :=
  join REPORTS_DIR ("full_" +:+ viewport +:+ "_" +:+ stamp 0 w +:+ ".png").

Definition compare_path (vp : string) (i : nat) (w : World) : string :=
  join REPORTS_DIR ("compare_" +:+ vp +:+ "_" +:+ stamp i w +:+ ".png").

Definition comparison_entry (vp : string) (i : nat) (w : World) : Value :=
  VObj [("viewport", VStr vp); ("file", VStr (compare_path vp i w))].

(** A page with nothing to improve, and a visit that took 120 ms. *)
Definition tidy_page : PageFacts :=
  mkPageFacts 96.5%float 180 0 0 1 true false true true true true true.

(** ** Performance budget *)

Definition DEFAULT_BUDGETS : gmap string Js.number :=
  list_to_map
    [ ("lcp", 2500%float); ("fcp", 1800%float); ("cls", 0.1%float); ("ttfb", 800%float);
      ("loadTime", 3000%float); ("domElements", 1500%float); ("requests", 50%float);
      ("totalSize", Js.of_Z (2 * 1024 * 1024)) ].

(** What one run of [checkBudget] observes: the milliseconds between the
    two readings of [Date.now()], the responses counted by the listener and
    the timings of [page.evaluate]. *)
Record BudgetFacts := mkBudgetFacts {
  bf_loadTime : Z;
  bf_ttfb : Js.number;
  bf_fcp : Js.number;
  bf_domElements : nat;
  bf_requestCount : nat;
  bf_totalSize : nat
}.

(** One property of the local object [checks]. *)
Record BudgetCheck := mkBudgetCheck {
  check_name : string;
  check_value : Js.number;
  check_limit : option Js.number;
  check_passed : bool;
  check_formatted : option string
}.

(** [x <= limit]; a missing limit is [undefined] and compares false. *)
Definition within (x : Js.number) (limit : option Js.number) : bool :=
  match limit with
  | Some l => PrimFloat.leb x l
  | None => false
  end.

Section Budget.

(** The text of a number in a template literal. *)
Variable Number_toString : Js.number -> string.

Definition limit_text (limit : option Js.number) : string :=
  match limit with
  | Some l => Number_toString l
  | None => "undefined"
  end.

(** [budgets] holds the numeric properties of the option of that name. *)
Definition checks_of (budgets : gmap string Js.number) (facts : BudgetFacts) : list BudgetCheck :=
  let limits := budgets ∪ DEFAULT_BUDGETS in
  [ mkBudgetCheck "loadTime" (Js.of_Z (bf_loadTime facts)) (limits !! "loadTime")
      (within (Js.of_Z (bf_loadTime facts)) (limits !! "loadTime")) None;
    mkBudgetCheck "ttfb" (Js.Math_round (bf_ttfb facts)) (limits !! "ttfb")
      (within (bf_ttfb facts) (limits !! "ttfb")) None;
    mkBudgetCheck "fcp" (Js.Math_round (bf_fcp facts)) (limits !! "fcp")
      (within (bf_fcp facts) (limits !! "fcp")) None;
    mkBudgetCheck "domElements" (Js.of_nat (bf_domElements facts)) (limits !! "domElements")
      (within (Js.of_nat (bf_domElements facts)) (limits !! "domElements")) None;
    mkBudgetCheck "requests" (Js.of_nat (bf_requestCount facts)) (limits !! "requests")
      (within (Js.of_nat (bf_requestCount facts)) (limits !! "requests")) None;
    mkBudgetCheck "totalSize" (Js.of_nat (bf_totalSize facts)) (limits !! "totalSize")
      (within (Js.of_nat (bf_totalSize facts)) (limits !! "totalSize"))
      (Some (Js.toFixed2 (Js.of_nat (bf_totalSize facts) / 1024 / 1024)%float +:+ "MB")) ].

Definition check_value_of (c : BudgetCheck) : Value :=
  VObj ([("value", VNum (check_value c))]
        ++ match check_limit c with Some l => [("limit", VNum l)] | None => [] end
        ++ [("passed", VBool (check_passed c))]
        ++ match check_formatted c with Some f => [("formatted", VStr f)] | None => [] end).

Definition recommendation (c : BudgetCheck) : Value :=
  VStr (check_name c +:+ ": " +:+ Number_toString (check_value c)
        +:+ " exceeds budget of " +:+ limit_text (check_limit c)).

Definition checkBudget (facts : BudgetFacts) (budgets : option (gmap string Js.number))
    (viewport : option string) : M Obj :=
  let budgets := default ∅ budgets in
  _ ← getBrowser;
  try_finally
    (_ ← newPage_goto;
     let checks := checks_of budgets facts in
     let passedCount := length (filter (fun c => check_passed c = true) checks) in
     let totalChecks := length checks in
     mret [("success", VBool true);
           ("budgetResult", VStr (if (passedCount =? totalChecks)%nat then "PASSED" else "FAILED"));
           ("score", VStr (pretty passedCount +:+ "/" +:+ pretty totalChecks));
           ("checks", VObj (map (fun c => (check_name c, check_value_of c)) checks));
           ("recommendations",
            VArr (map recommendation (filter (fun c => check_passed c = false) checks)))])
    browser_close.

End Budget.

(** The six budgets that are looked at. *)
Definition checked_budgets : list string :=
  ["loadTime"; "ttfb"; "fcp"; "domElements"; "requests"; "totalSize"].

(** A run within the default budgets. *)
Definition light_page : BudgetFacts := mkBudgetFacts 640 120.5%float 410.25%float 320 18 524288.

Definition plain_text (x : Js.number) : string := Js.toFixed2 x.

(** * Properties *)

(** ** Numbers *)

Lemma SFcompare_antisym (a b : spec_float) :
  SFcompare b a = option_map CompOpp (SFcompare a b).
Proof.
  destruct a as [[]|[]| |[] m e], b as [[]|[]| |[] m' e']; simpl; try reflexivity.
  all: rewrite (Z.compare_antisym e e'); destruct (e ?= e')%Z; simpl; try reflexivity.
  all: fold (Pos.compare m m'); fold (Pos.compare m' m).
  all: rewrite (Pos.compare_antisym m m'); destruct (Pos.compare m m'); reflexivity.
Qed.

(** [t < d] excludes [d <= t]. *)
Lemma number_lt_not_le (t d : Js.number) :
  (t <? d)%float = true -> (d <=? t)%float = false.
Proof.
  rewrite ltb_spec, leb_spec. unfold SFltb, SFleb.
  rewrite (SFcompare_antisym (Prim2SF t) (Prim2SF d)).
  destruct (SFcompare (Prim2SF t) (Prim2SF d)) as [[]|]; simpl; congruence.
Qed.

(** ** MD5 test vectors (RFC 1321, appendix A.5) *)

Example md5_empty : MD5.digest_hex [] = "d41d8cd98f00b204e9800998ecf8427e".
Proof. vm_compute. reflexivity. Qed.

Example md5_abc :
  MD5.digest_hex (list_byte_of_string "abc") = "900150983cd24fb0d6963f7d28e17f72".
Proof. vm_compute. reflexivity. Qed.

Example md5_message_digest :
  MD5.digest_hex (list_byte_of_string "message digest")
  = "f96b697d7cb7938d525a2f31aaf161d0".
Proof. vm_compute. reflexivity. Qed.

Example md5_two_blocks :
  MD5.digest_hex
    (list_byte_of_string
       "12345678901234567890123456789012345678901234567890123456789012345678901234567890")
  = "57edf4a22be3c955ac49da2e2107b67a".
Proof. vm_compute. reflexivity. Qed.

Lemma collision_digest :
  MD5.digest_hex collision_a = "79054025255fb1a26e4bc422aef54eb4" /\
  MD5.digest_hex collision_b = "79054025255fb1a26e4bc422aef54eb4".
Proof. split; vm_compute; reflexivity. Qed.

Lemma collision_differs : collision_a <> collision_b.
Proof. discriminate. Qed.

(** ** Buffers *)

Lemma length_bytes n b : length (bytes n b) = N.to_nat n.
Proof.
  unfold bytes. induction n as [|n IH] using N.peano_ind; [reflexivity|].
  rewrite N.iter_succ, N2Nat.inj_succ. simpl. by rewrite IH.
Qed.

(** ** Paths *)

Lemma diffs_ne_baselines x y : join DIFFS_DIR x <> join BASELINES_DIR y.
Proof. cbv [join DIFFS_DIR BASELINES_DIR REPORTS_DIR OUTPUT_DIR]. simpl. discriminate. Qed.

Lemma current_ne_baseline args args' w : current_path args w <> baseline_path args'.
Proof. apply diffs_ne_baselines. Qed.



(** ** The sampling loop *)

Ltac world_simpl :=
  cbn [fs launch_ok goto_ok page shots clock ticks random draws err_message
       err_stack browsers with_fs with_shots with_ticks with_draws with_browsers
       fst snd] in *.

(** The loop always finishes with a count, and only draws random numbers. *)
Lemma sample_loop_returns fuel b c s i k w :
  exists n d, sample_loop fuel b c s i k w = (Return n, with_draws d w) /\ (draws w <= d)%nat.
Proof.
  revert i k w. induction fuel as [|fuel IH]; intros i k w; simpl.
  - exists k, (draws w). destruct w; split; [reflexivity | world_simpl; lia].
  - destruct (i <? s)%nat.
    + unfold mbind, M_bind, Math_random.
      match goal with |- context [sample_loop fuel b c s ?i' ?k' ?w'] =>
        destruct (IH i' k' w') as (n & d & -> & Hd) end.
      exists n, d. split; [destruct w; reflexivity | world_simpl; lia].
    + exists k, (draws w). destruct w; split; [reflexivity | world_simpl; lia].
Qed.

(** Its count depends on the random source only. *)
Lemma sample_loop_frame fuel b c s i k w w' n d :
  random w' = random w -> draws w' = draws w ->
  sample_loop fuel b c s i k w = (Return n, with_draws d w) ->
  sample_loop fuel b c s i k w' = (Return n, with_draws d w').
Proof.
  revert i k w w'. induction fuel as [|fuel IH]; intros i k w w' Hr Hd; simpl.
  - unfold mret, M_ret. intros [= <- Hw]. f_equal.
    destruct w, w'; world_simpl. unfold with_draws in *; world_simpl.
    inversion Hw; subst; reflexivity.
  - destruct (i <? s)%nat.
    + unfold mbind, M_bind, Math_random. rewrite Hr, Hd. intros H.
      match goal with |- sample_loop fuel b c s ?i' ?k' ?w1' = _ =>
        match type of H with sample_loop _ _ _ _ _ _ ?w1 = _ =>
          pose proof (IH i' k' w1 w1') as IH' end end.
      destruct w, w'; world_simpl. unfold with_draws in *; world_simpl.
      apply IH'; auto.
    + unfold mret, M_ret. intros [= <- Hw]. f_equal.
      destruct w, w'; world_simpl. unfold with_draws in *; world_simpl.
      inversion Hw; subst; reflexivity.
Qed.

(** The fuel [visualRegression] passes never runs out: once it covers the
    remaining iterations, more fuel changes nothing. *)
Lemma sample_loop_fuel fuel fuel' b c s i k w :
  (s <= i + 4 * fuel)%nat -> (s <= i + 4 * fuel')%nat ->
  sample_loop fuel b c s i k w = sample_loop fuel' b c s i k w.
Proof.
  revert fuel' i k w. induction fuel as [|fuel IH]; intros [|fuel'] i k w H H'; simpl;
    try reflexivity.
  - destruct (Nat.ltb_spec i s); [lia | reflexivity].
  - destruct (Nat.ltb_spec i s); [lia | reflexivity].
  - destruct (Nat.ltb_spec i s); [|reflexivity].
    unfold mbind, M_bind, Math_random. apply IH; lia.
Qed.

Lemma sample_loop_enough_fuel b c s k w extra :
  sample_loop s b c s 0 k w = sample_loop (s + extra) b c s 0 k w.
Proof. apply sample_loop_fuel; lia. Qed.

(** ** Runs of [visualRegression], case by case *)

(** Runs the tool up to the baseline lookup that follows the first
    screenshot. *)
Ltac vr_prefix args w Hl Hg Hp :=
  cbv beta zeta delta [visualRegression try_finally mbind M_bind mret M_ret
    getBrowser getPage browser_close timestamp page_screenshot existsSync
    readFileSync writeFileSync unlinkSync];
  fold (name_of args) (viewport_of args) (threshold_of args);
  fold (baseline_path args);
  rewrite Hl; world_simpl; rewrite Hg; world_simpl; rewrite Hp; world_simpl;
  change (slice0 19 (dashed (clock w (ticks w)))) with (stamp 0 w);
  fold (current_path args w);
  rewrite (lookup_insert_ne (fs w) _ _ _ (current_ne_baseline args args w)).

(** Continues into the comparison once the baseline [b] is found. *)
Ltac vr_found args w Hb :=
  rewrite Hb; rewrite bool_decide_eq_true_2 by eauto;
  cbn [negb]; world_simpl;
  rewrite (lookup_insert_ne (fs w) _ _ _ (current_ne_baseline args args w));
  rewrite Hb; world_simpl; rewrite lookup_insert_eq.

Lemma vr_launch_fails args w :
  launch_ok w = false -> visualRegression args w = (Throw LaunchError, w).
Proof.
  intros H. cbv beta zeta delta [visualRegression try_finally mbind M_bind getBrowser].
  rewrite H. reflexivity.
Qed.

Lemma vr_goto_fails args w :
  launch_ok w = true -> goto_ok w = false ->
  visualRegression args w = (Throw NavigationError, w).
Proof.
  intros Hl Hg.
  cbv beta zeta delta [visualRegression try_finally mbind M_bind mret M_ret
    getBrowser getPage browser_close].
  rewrite Hl. world_simpl. rewrite Hg. world_simpl. destruct w; reflexivity.
Qed.

Lemma vr_capture_fails args w :
  launch_ok w = true -> goto_ok w = true -> page w (shots w) = None ->
  visualRegression args w =
    (Throw CaptureError, with_shots (S (shots w)) (with_ticks (S (ticks w)) w)).
Proof.
  intros Hl Hg Hp.
  cbv beta zeta delta [visualRegression try_finally mbind M_bind mret M_ret
    getBrowser getPage browser_close timestamp page_screenshot].
  rewrite Hl. world_simpl. rewrite Hg. world_simpl. rewrite Hp. world_simpl.
  destruct w; reflexivity.
Qed.

Lemma vr_created args w cur :
  launch_ok w = true -> goto_ok w = true -> page w (shots w) = Some cur ->
  baseline_of args w = None ->
  visualRegression args w = (Return (created_result args), after_created args w cur).
Proof.
  unfold baseline_of. intros Hl Hg Hp Hb. vr_prefix args w Hl Hg Hp.
  rewrite Hb. rewrite bool_decide_eq_false_2 by (intros [? ?]; discriminate).
  cbn [negb]. world_simpl. rewrite lookup_insert_eq. world_simpl.
  unfold after_created. destruct w; reflexivity.
Qed.

Lemma vr_identical args w b cur :
  launch_ok w = true -> goto_ok w = true -> page w (shots w) = Some cur ->
  baseline_of args w = Some b ->
  MD5.digest_hex b = MD5.digest_hex cur ->
  visualRegression args w = (Return identical_result, after_identical args w cur).
Proof.
  unfold baseline_of. intros Hl Hg Hp Hb Hh. vr_prefix args w Hl Hg Hp. vr_found args w Hb.
  rewrite bool_decide_eq_true_2 by exact Hh.
  world_simpl. rewrite lookup_insert_eq. world_simpl.
  unfold after_identical. destruct w; reflexivity.
Qed.

Lemma vr_comparison_capture_fails args w b cur :
  launch_ok w = true -> goto_ok w = true -> page w (shots w) = Some cur ->
  baseline_of args w = Some b ->
  MD5.digest_hex b <> MD5.digest_hex cur ->
  page w (S (shots w)) = None ->
  visualRegression args w =
    (Throw CaptureError,
     with_shots (S (S (shots w))) (with_ticks (S (ticks w))
       (with_fs (insert (current_path args w) cur) w))).
Proof.
  unfold baseline_of. intros Hl Hg Hp Hb Hh Hp2. vr_prefix args w Hl Hg Hp. vr_found args w Hb.
  rewrite bool_decide_eq_false_2 by exact Hh.
  world_simpl. rewrite Hp2. world_simpl.
  destruct w; reflexivity.
Qed.

Lemma vr_compared args w b cur cmp :
  launch_ok w = true -> goto_ok w = true -> page w (shots w) = Some cur ->
  baseline_of args w = Some b ->
  MD5.digest_hex b <> MD5.digest_hex cur ->
  page w (S (shots w)) = Some cmp ->
  visualRegression args w =
    (Return (compared_result args w b cur), after_compared args w b cur).
Proof.
  unfold baseline_of. intros Hl Hg Hp Hb Hh Hp2. vr_prefix args w Hl Hg Hp. vr_found args w Hb.
  rewrite bool_decide_eq_false_2 by exact Hh.
  world_simpl. rewrite Hp2. world_simpl.
  unfold compared_result, after_compared, diffPercentage_in, pixelDiffs_in, draws_after.
  set (s := sampleSizeOf b cur).
  destruct (sample_loop_returns s b cur s 0 0 w) as (n & d & Hrun & _).
  rewrite Hrun.
  match goal with |- context [sample_loop s b cur s 0 0 ?w3] =>
    rewrite (sample_loop_frame s b cur s 0 0 w w3 n d eq_refl eq_refl Hrun) end.
  world_simpl.
  change (slice0 19 (dashed (clock w (S (ticks w))))) with (stamp 1 w).
  fold (diff_path args w).
  destruct w; reflexivity.
Qed.

(** Every returning run has one of the three shapes. *)
Lemma vr_returns_inv args w r w' :
  visualRegression args w = (Return r, w') ->
  launch_ok w = true /\ goto_ok w = true /\ Returned args w r w'.
Proof.
  intros H.
  destruct (launch_ok w) eqn:Hl; [|rewrite vr_launch_fails in H by done; discriminate].
  destruct (goto_ok w) eqn:Hg; [|rewrite vr_goto_fails in H by done; discriminate].
  destruct (page w (shots w)) as [cur|] eqn:Hp;
    [|rewrite vr_capture_fails in H by done; discriminate].
  split; [done|split; [done|]].
  destruct (baseline_of args w) as [b|] eqn:Hb.
  - destruct (decide (MD5.digest_hex b = MD5.digest_hex cur)) as [Hh|Hh].
    + rewrite (vr_identical args w b cur) in H by done.
      injection H as <- <-. by eapply Returned_identical.
    + destruct (page w (S (shots w))) as [cmp|] eqn:Hp2.
      * rewrite (vr_compared args w b cur cmp) in H by done.
        injection H as <- <-. by eapply Returned_compared.
      * rewrite (vr_comparison_capture_fails args w b cur) in H by done. discriminate.
  - rewrite (vr_created args w cur) in H by done.
    injection H as <- <-. by eapply Returned_created.
Qed.

(** The status of a compared result is the verdict on the unrounded
    percentage; the reported percentage is rounded afterwards. *)
Lemma compared_fields args w b cur :
  get "status" (compared_result args w b cur) =
    Some (VStr (if (diffPercentage_in b cur w <=? threshold_of args)%float
                then "passed" else "failed")) /\
  get "diffPercentage" (compared_result args w b cur) =
    Some (VNum (Js.Math_round (diffPercentage_in b cur w * 100) / 100)%float) /\
  get "threshold" (compared_result args w b cur) = Some (VNum (threshold_of args)) /\
  get "diff" (compared_result args w b cur) = Some (VStr (diff_path args w)) /\
  get "sizeDiff" (compared_result args w b cur) =
    Some (VStr (Js.toFixed2 (sizeDiffOf b cur * 100)%float +:+ "%")).
Proof. repeat split. Qed.

Lemma compared_status_cases args w b cur :
  get "status" (compared_result args w b cur) = Some (VStr "passed") \/
  get "status" (compared_result args w b cur) = Some (VStr "failed").
Proof.
  destruct (compared_fields args w b cur) as (-> & _).
  destruct (_ <=? _)%float; auto.
Qed.

(** Only compared results carry the status passed or failed. *)
Lemma verdict_inv args w r w' :
  Returned args w r w' ->
  get "status" r = Some (VStr "passed") \/ get "status" r = Some (VStr "failed") ->
  exists b cur cmp,
    page w (shots w) = Some cur /\ baseline_of args w = Some b /\
    MD5.digest_hex b <> MD5.digest_hex cur /\ page w (S (shots w)) = Some cmp /\
    r = compared_result args w b cur /\ w' = after_compared args w b cur.
Proof.
  intros [cur Hp Hb|b cur Hp Hb Hh|b cur cmp Hp Hb Hh Hp2] Hst.
  - destruct Hst as [Hst|Hst]; discriminate Hst.
  - destruct Hst as [Hst|Hst]; discriminate Hst.
  - by exists b, cur, cmp.
Qed.

(** The browser a run starts is closed again on every path. *)
Lemma vr_releases_browser args w o w' :
  visualRegression args w = (o, w') -> browsers w' = browsers w.
Proof.
  intros H.
  destruct (launch_ok w) eqn:Hl; [|rewrite vr_launch_fails in H by done; by simplify_eq].
  destruct (goto_ok w) eqn:Hg; [|rewrite vr_goto_fails in H by done; by simplify_eq].
  destruct (page w (shots w)) as [cur|] eqn:Hp;
    [|rewrite vr_capture_fails in H by done; by simplify_eq].
  destruct (baseline_of args w) as [b|] eqn:Hb.
  - destruct (decide (MD5.digest_hex b = MD5.digest_hex cur)) as [Hh|Hh].
    + rewrite (vr_identical args w b cur) in H by done. by simplify_eq.
    + destruct (page w (S (shots w))) as [cmp|] eqn:Hp2.
      * rewrite (vr_compared args w b cur cmp) in H by done. by simplify_eq.
      * rewrite (vr_comparison_capture_fails args w b cur) in H by done. by simplify_eq.
  - rewrite (vr_created args w cur) in H by done. by simplify_eq.
Qed.

(** The scenario of a first run followed by a run on the unchanged page:
    the baseline is created, then the snapshot is found identical. *)
Example first_run_then_unchanged_page :
  exists w1 w2,
    visualRegression no_args fresh_world = (Return (created_result no_args), w1) /\
    visualRegression no_args w1 = (Return identical_result, w2) /\
    baseline_of no_args w2 = Some small_current.
Proof.
  exists (after_created no_args fresh_world small_current),
         (after_identical no_args (after_created no_args fresh_world small_current)
            small_current).
  repeat split; vm_compute; reflexivity.
Qed.

(** ** What the baseline tools do to stored baselines *)

Lemma vr_preserves_baselines args args' w b o w' :
  baseline_of args' w = Some b ->
  visualRegression args w = (o, w') ->
  baseline_of args' w' = Some b.
Proof.
  intros Hb' H.
  destruct (launch_ok w) eqn:Hl; [|rewrite vr_launch_fails in H by done; by simplify_eq].
  destruct (goto_ok w) eqn:Hg; [|rewrite vr_goto_fails in H by done; by simplify_eq].
  destruct (page w (shots w)) as [cur|] eqn:Hp;
    [|rewrite vr_capture_fails in H by done; by simplify_eq].
  pose proof (current_ne_baseline args args' w) as Hne.
  destruct (baseline_of args w) as [b0|] eqn:Hb.
  - destruct (decide (MD5.digest_hex b0 = MD5.digest_hex cur)) as [Hh|Hh].
    + rewrite (vr_identical args w b0 cur) in H by done. simplify_eq.
      unfold baseline_of, after_identical in *. world_simpl.
      by rewrite lookup_delete_ne, lookup_insert_ne.
    + destruct (page w (S (shots w))) as [cmp|] eqn:Hp2.
      * rewrite (vr_compared args w b0 cur cmp) in H by done. simplify_eq.
        unfold baseline_of, after_compared in *. world_simpl.
        by rewrite lookup_insert_ne.
      * rewrite (vr_comparison_capture_fails args w b0 cur) in H by done.
        simplify_eq. unfold baseline_of in *. world_simpl. by rewrite lookup_insert_ne.
  - rewrite (vr_created args w cur) in H by done. simplify_eq.
    unfold baseline_of, after_created in *. world_simpl.
    assert (baseline_path args <> baseline_path args') by congruence.
    by rewrite !lookup_insert_ne.
Qed.


Lemma listBaselines_reads_only args w : exists r, listBaselines args w = (Return r, w).
Proof. eexists. reflexivity. Qed.

(** ** The dispatcher *)

(** [handleTool] adds no effect of its own to those of the tool it runs. *)
Lemma handleTool_world other name args w o w' (P : World -> Prop) :
  P w ->
  (forall fn o1 w1, assoc name (tools other) = Some fn -> fn args w = (o1, w1) -> P w1) ->
  handleTool other name args w = (o, w') -> P w'.
Proof.
  intros Hw Hfn. unfold handleTool.
  destruct (assoc name (tools other)) as [fn|] eqn:Hlook.
  - unfold try_catch. destruct (fn args w) as [[r|e] w1] eqn:Hrun.
    + intros [= <- <-]. eauto.
    + unfold report_error. intros [= <- <-]. eauto.
  - destruct (bool_decide _).
    + unfold try_catch, throw, report_error. by intros [= <- <-].
    + by intros [= <- <-].
Qed.



(** ** Files no baseline tool writes *)

(** A regression run writes the current snapshot and, when it is missing,
    the baseline; every other path is left as it was. *)
Lemma vr_frame args w o w' p :
  p <> current_path args w -> p <> baseline_path args ->
  visualRegression args w = (o, w') ->
  fs w' !! p = fs w !! p.
Proof.
  intros Hc Hbp H.
  destruct (launch_ok w) eqn:Hl; [|rewrite vr_launch_fails in H by done; by simplify_eq].
  destruct (goto_ok w) eqn:Hg; [|rewrite vr_goto_fails in H by done; by simplify_eq].
  destruct (page w (shots w)) as [cur|] eqn:Hp;
    [|rewrite vr_capture_fails in H by done; by simplify_eq].
  destruct (baseline_of args w) as [b|] eqn:Hb.
  - destruct (decide (MD5.digest_hex b = MD5.digest_hex cur)) as [Hh|Hh].
    + rewrite (vr_identical args w b cur) in H by done. simplify_eq.
      unfold after_identical. world_simpl.
      by rewrite lookup_delete_ne, lookup_insert_ne.
    + destruct (page w (S (shots w))) as [cmp|] eqn:Hp2.
      * rewrite (vr_compared args w b cur cmp) in H by done. simplify_eq.
        unfold after_compared. world_simpl. by rewrite lookup_insert_ne.
      * rewrite (vr_comparison_capture_fails args w b cur) in H by done.
        simplify_eq. world_simpl. by rewrite lookup_insert_ne.
  - rewrite (vr_created args w cur) in H by done. simplify_eq.
    unfold after_created. world_simpl. by rewrite !lookup_insert_ne.
Qed.

Lemma saveBaseline_frame args w o w' p :
  p <> baseline_path args -> saveBaseline args w = (o, w') -> fs w' !! p = fs w !! p.
Proof.
  intros Hp.
  cbv beta zeta delta [saveBaseline try_finally mbind M_bind mret M_ret
    getBrowser getPage browser_close page_screenshot].
  destruct (launch_ok w); world_simpl; [|by intros; simplify_eq].
  destruct (goto_ok w); world_simpl; [|by intros; simplify_eq].
  destruct (page w (shots w)); world_simpl; intros; simplify_eq; world_simpl; [|done].
  by rewrite lookup_insert_ne.
Qed.

Lemma updateBaseline_frame args w o w' p :
  p <> baseline_path args -> updateBaseline args w = (o, w') -> fs w' !! p = fs w !! p.
Proof.
  intros Hp.
  cbv beta zeta delta [updateBaseline try_finally mbind M_bind mret M_ret
    getBrowser getPage browser_close page_screenshot].
  destruct (launch_ok w); world_simpl; [|by intros; simplify_eq].
  destruct (goto_ok w); world_simpl; [|by intros; simplify_eq].
  destruct (page w (shots w)); world_simpl; intros; simplify_eq; world_simpl; [|done].
  by rewrite lookup_insert_ne.
Qed.

Lemma compareToBaseline_frame args w o w' p :
  (forall x, p <> join REPORTS_DIR ("current_" +:+ x)) ->
  compareToBaseline args w = (o, w') -> fs w' !! p = fs w !! p.
Proof.
  intros Hp.
  cbv beta zeta delta [compareToBaseline try_finally mbind M_bind mret M_ret
    getBrowser getPage browser_close timestamp page_screenshot existsSync].
  world_simpl.
  destruct (negb _); [by intros; simplify_eq|].
  destruct (launch_ok w); world_simpl; [|by intros; simplify_eq].
  destruct (goto_ok w); world_simpl; [|by intros; simplify_eq].
  destruct (page w (shots w)); world_simpl; intros; simplify_eq; world_simpl; [|done].
  rewrite lookup_insert_ne; [done|]. apply not_eq_sym, Hp.
Qed.

Lemma diff_file_ne_current x args w : join DIFFS_DIR ("diff_" +:+ x) <> current_path args w.
Proof.
  cbv [current_path join DIFFS_DIR REPORTS_DIR OUTPUT_DIR]. simpl. discriminate.
Qed.

Lemma diff_file_ne_reports_current x y :
  join DIFFS_DIR ("diff_" +:+ x) <> join REPORTS_DIR ("current_" +:+ y).
Proof. cbv [join DIFFS_DIR REPORTS_DIR OUTPUT_DIR]. simpl. discriminate. Qed.

(** None of the baseline tools ever writes a [diff_...] file of the diffs
    directory: such a file exists after a call only if it existed before. *)
Lemma diff_files_are_never_written tool args w o w' x :
  handleTool [] tool args w = (o, w') ->
  fs w' !! join DIFFS_DIR ("diff_" +:+ x) = fs w !! join DIFFS_DIR ("diff_" +:+ x).
Proof.
  set (p := join DIFFS_DIR ("diff_" +:+ x)).
  apply (handleTool_world [] tool args w o w' (fun w0 => fs w0 !! p = fs w !! p)); [done|].
  intros fn o1 w1 Hlook Hrun. cbn in Hlook.
  repeat match type of Hlook with
         | (if String.eqb ?a ?b then _ else _) = _ =>
             destruct (String.eqb_spec a b); simplify_eq
         end.
  - eapply saveBaseline_frame; [|exact Hrun]. apply diffs_ne_baselines.
  - eapply compareToBaseline_frame; [|exact Hrun]. intros y. apply diff_file_ne_reports_current.
  - eapply vr_frame; [| |exact Hrun]; [apply diff_file_ne_current | apply diffs_ne_baselines].
  - eapply updateBaseline_frame; [|exact Hrun]. apply diffs_ne_baselines.
  - destruct (listBaselines_reads_only args w) as [r Hr].
    rewrite Hr in Hrun. by injection Hrun as <- <-.
Qed.

(** ** Range of the difference percentage when both files are large *)

(** The loop counts at most one mismatch per started group of four. *)
Lemma sample_loop_count fuel b c s i k w :
  exists n d, sample_loop fuel b c s i k w = (Return n, with_draws d w) /\
              (k <= n <= k + (s + 3 - i) / 4)%nat.
Proof.
  revert i k w. induction fuel as [|fuel IH]; intros i k w; cbn [sample_loop].
  - exists k, (draws w). destruct w; split; [reflexivity | lia].
  - destruct (Nat.ltb_spec i s) as [Hlt|Hge].
    + unfold mbind, M_bind, Math_random.
      match goal with |- context [sample_loop fuel b c s ?i' ?k' ?w'] =>
        destruct (IH i' k' w') as (n & d & -> & Hn) end.
      exists n, d. split; [destruct w; reflexivity|].
      assert ((s + 3 - i) / 4 = S ((s + 3 - (i + 4)) / 4))%nat as ->.
      { replace (s + 3 - i)%nat with ((s + 3 - (i + 4)) + 1 * 4)%nat by lia.
        rewrite Nat.div_add by lia. lia. }
      case_bool_decide; lia.
    + exists k, (draws w). destruct w; split; [reflexivity | lia].
Qed.

Lemma pixelDiffs_bound b c w :
  (pixelDiffs_in b c w <= (sampleSizeOf b c + 3) / 4)%nat.
Proof.
  unfold pixelDiffs_in.
  destruct (sample_loop_count (sampleSizeOf b c) b c (sampleSizeOf b c) 0 0 w)
    as (n & d & -> & Hn).
  rewrite Nat.sub_0_r in Hn. lia.
Qed.

(** X24: with at least 10000 bytes on both sides, 2500 samples are taken and
    divided by 2500: the percentage is within range. *)
Lemma large_files_stay_in_range b c w :
  (10000 <= length b)%nat -> (10000 <= length c)%nat ->
  in_percent_range (diffPercentage_in b c w) = true.
Proof.
  intros Hb Hc. unfold diffPercentage_in.
  pose proof (pixelDiffs_bound b c w) as Hk.
  assert (Hs : sampleSizeOf b c = 10000%nat) by (unfold sampleSizeOf; lia).
  rewrite Hs in *.
  assert (Hall : forallb (fun k => in_percent_range (diffPercentageOf k 10000))
                         (seq 0 2501) = true) by (vm_compute; reflexivity).
  rewrite forallb_forall in Hall. apply Hall, in_seq.
  change ((10000 + 3) / 4)%nat with 2500%nat in Hk. lia.
Qed.

(** * The claims *)

(** ** C1: the verdict against the threshold *)

(** C1, as stated, fails on the code: the server decides "byte-identical" by
    comparing MD5 digests, so two different files with colliding digests
    are reported [identical] and get neither [passed] nor [failed].  Here a
    baseline exists, the snapshot differs from it, and the status is
    [identical]. *)
Lemma digest_collision_is_reported_identical :
  baseline_of no_args collision_world = Some collision_a /\
  page collision_world (shots collision_world) = Some collision_b /\
  collision_a <> collision_b /\
  exists r w',
    visualRegression no_args collision_world = (Return r, w') /\
    get "status" r = Some (VStr "identical") /\
    get "status" r <> Some (VStr "passed") /\
    get "status" r <> Some (VStr "failed").
Proof.
  assert (Hb : baseline_of no_args collision_world = Some collision_a)
    by (vm_compute; reflexivity).
  split; [exact Hb|]. split; [reflexivity|]. split; [exact collision_differs|].
  exists identical_result, (after_identical no_args collision_world collision_b).
  split; [|by repeat split].
  apply (vr_identical no_args collision_world collision_a collision_b);
    [reflexivity | reflexivity | reflexivity | exact Hb |].
  destruct collision_digest as [-> ->]. reflexivity.
Qed.

(** C1 (amended): for every run of visual_regression in which a baseline
    exists and the MD5 digests of the baseline and of the new snapshot
    differ, the returned status is [passed] if and only if the computed
    (unrounded) diffPercentage is less than or equal to the threshold, and
    [failed] otherwise; and for the same files and random samples, that is
    the same computed diffPercentage [d], the status is [passed] for every
    threshold [t >= d] and [failed] for every threshold [t < d]. *)
Theorem verdict_follows_threshold args w b cur r w' :
  baseline_of args w = Some b ->
  page w (shots w) = Some cur ->
  MD5.digest_hex b <> MD5.digest_hex cur ->
  visualRegression args w = (Return r, w') ->
  (get "status" r = Some (VStr "passed")
     <-> (diffPercentage_in b cur w <=? threshold_of args)%float = true) /\
  (get "status" r = Some (VStr "failed")
     <-> (diffPercentage_in b cur w <=? threshold_of args)%float = false) /\
  (forall t r_t w_t,
     visualRegression (with_threshold t args) w = (Return r_t, w_t) ->
     ((diffPercentage_in b cur w <=? t)%float = true ->
        get "status" r_t = Some (VStr "passed")) /\
     ((t <? diffPercentage_in b cur w)%float = true ->
        get "status" r_t = Some (VStr "failed"))).
Proof.
  intros Hb Hp Hh Hrun.
  assert (Hcase : forall a r0 w0, baseline_path a = baseline_path args ->
            visualRegression a w = (Return r0, w0) ->
            get "status" r0 =
              Some (VStr (if (diffPercentage_in b cur w <=? threshold_of a)%float
                          then "passed" else "failed"))).
  { intros a r0 w0 Hpath Hr0.
    apply vr_returns_inv in Hr0 as (_ & _ & Hret).
    destruct Hret as [cur' Hp' Hb'|b' cur' Hp' Hb' Hh'|b' cur' cmp Hp' Hb' Hh' Hp2];
      unfold baseline_of in *; rewrite Hpath in Hb'; simplify_eq; try congruence.
    apply compared_fields. }
  pose proof (Hcase args r w' eq_refl Hrun) as Hs.
  split; [|split].
  - rewrite Hs. destruct (_ <=? _)%float; split; congruence.
  - rewrite Hs. destruct (_ <=? _)%float; split; congruence.
  - intros t r_t w_t Hrun_t.
    pose proof (Hcase (with_threshold t args) r_t w_t eq_refl Hrun_t) as Ht.
    change (threshold_of (with_threshold t args)) with t in Ht.
    split; intros Hd.
    + by rewrite Ht, Hd.
    + by rewrite Ht, (number_lt_not_le _ _ Hd).
Qed.

Lemma verdict_follows_threshold_witness :
  get "status" (compared_result no_args small_world small_baseline small_current)
    = Some (VStr "failed")
  <-> (diffPercentage_in small_baseline small_current small_world
         <=? threshold_of no_args)%float = false.
Proof.
  refine (proj1 (proj2 (verdict_follows_threshold no_args small_world
            small_baseline small_current
            (compared_result no_args small_world small_baseline small_current)
            (after_compared no_args small_world small_baseline small_current)
            _ _ _ _))).
  - vm_compute; reflexivity.
  - vm_compute; reflexivity.
  - vm_compute; discriminate.
  - vm_compute; reflexivity.
Defined.

(** ** C2: unchanged bytes *)

(** C2, as stated, fails on the code: the [identical] result has no
    diffPercentage property at all (so it is not 0). *)
Lemma identical_result_has_no_diffPercentage :
  baseline_of no_args unchanged_world = Some small_baseline /\
  page unchanged_world (shots unchanged_world) = Some small_baseline /\
  exists r w',
    visualRegression no_args unchanged_world = (Return r, w') /\
    get "status" r = Some (VStr "identical") /\
    get "diffPercentage" r = None /\
    get "diffPercentage" r <> Some (VNum 0%float).
Proof.
  assert (Hb : baseline_of no_args unchanged_world = Some small_baseline)
    by (vm_compute; reflexivity).
  split; [exact Hb|]. split; [reflexivity|].
  exists identical_result, (after_identical no_args unchanged_world small_baseline).
  split; [|by repeat split].
  by apply (vr_identical no_args unchanged_world small_baseline small_baseline).
Qed.

(** C2 (amended): for every run of visual_regression in which a baseline
    exists and its bytes are those of the newly captured snapshot, the
    result is [{success: true, status: 'identical', message}] and carries no
    diffPercentage property; no difference estimation is performed (no
    random sample is drawn and no second screenshot is taken), the snapshot
    file is removed again and the baseline stays. *)
Theorem same_bytes_are_identical args w b :
  launch_ok w = true -> goto_ok w = true ->
  baseline_of args w = Some b ->
  page w (shots w) = Some b ->
  exists r w',
    visualRegression args w = (Return r, w') /\
    r = [("success", VBool true); ("status", VStr "identical");
         ("message", VStr "Screenshots are identical")] /\
    get "status" r = Some (VStr "identical") /\
    get "diffPercentage" r = None /\
    shots w' = S (shots w) /\ draws w' = draws w /\
    fs w' !! current_path args w = None /\
    baseline_of args w' = Some b.
Proof.
  intros Hl Hg Hb Hp.
  exists identical_result, (after_identical args w b).
  split; [by eapply (vr_identical args w b b)|].
  repeat (split; [reflexivity|]).
  unfold baseline_of, after_identical in *. world_simpl.
  pose proof (current_ne_baseline args args w) as Hne.
  by rewrite lookup_delete_eq, lookup_delete_ne, lookup_insert_ne.
Qed.

Lemma same_bytes_are_identical_witness :
  exists r w',
    visualRegression no_args unchanged_world = (Return r, w') /\
    r = [("success", VBool true); ("status", VStr "identical");
         ("message", VStr "Screenshots are identical")] /\
    get "status" r = Some (VStr "identical") /\
    get "diffPercentage" r = None /\
    shots w' = S (shots unchanged_world) /\ draws w' = draws unchanged_world /\
    fs w' !! current_path no_args unchanged_world = None /\
    baseline_of no_args w' = Some small_baseline.
Proof.
  apply (same_bytes_are_identical no_args unchanged_world small_baseline).
  - reflexivity.
  - reflexivity.
  - vm_compute; reflexivity.
  - reflexivity.
Defined.

(** ** C3: baseline auto-creation *)



(** ** C4: the command line never throws uncaught *)

(** C4 (the code departs from it): the options argument is parsed by
    [JSON.parse] at the top level of the script, before [handleTool] and
    outside every [try]; when the text is not JSON the [SyntaxError] ends
    the process uncaught and no result object is printed, whatever the
    command. *)
Theorem malformed_options_escape_dispatch
    other_tools JSON_parse node script command text err w :
  text <> "" ->
  JSON_parse text = inl err ->
  main other_tools JSON_parse [node; script; command; text] w = (Uncaught err, w).
Proof.
  intros Htext Hparse. unfold main. cbn [lookup list_lookup].
  rewrite bool_decide_eq_false_2 by exact Htext.
  rewrite Hparse. reflexivity.
Qed.

Lemma malformed_options_escape_dispatch_witness :
  main [] parse_empty_object ["node"; "server.js"; "visual_regression"; "{"] fresh_world
  = (Uncaught (SyntaxError "{"), fresh_world).
Proof.
  apply (malformed_options_escape_dispatch [] parse_empty_object
           "node" "server.js" "visual_regression" "{" (SyntaxError "{") fresh_world).
  - discriminate.
  - reflexivity.
Defined.

(** ** C5: range of the difference percentage *)

(** C5 (the code departs from it): the loop takes one sample for every
    started group of four bytes but divides by [sampleSize / 4]; when the
    sample size is not a multiple of four and all samples mismatch, the
    percentage exceeds 100 (seventy bytes: 18 samples over 17.5), and with
    an empty baseline file it is 0/0, not a number. *)
Theorem difference_percentage_leaves_range :
  (exists w',
     visualRegression no_args over_world =
       (Return (compared_result no_args over_world (bytes 70 x00) (bytes 70 xff)), w')) /\
  pixelDiffs_in (bytes 70 x00) (bytes 70 xff) over_world = 18%nat /\
  diffPercentage_in (bytes 70 x00) (bytes 70 xff) over_world = 102.85714285714285%float /\
  in_percent_range (diffPercentage_in (bytes 70 x00) (bytes 70 xff) over_world) = false /\
  get "diffPercentage" (compared_result no_args over_world (bytes 70 x00) (bytes 70 xff))
    = Some (VNum 102.86%float) /\
  (exists w',
     visualRegression no_args empty_baseline_world =
       (Return (compared_result no_args empty_baseline_world [] (bytes 70 xff)), w')) /\
  diffPercentage_in [] (bytes 70 xff) empty_baseline_world = nan /\
  in_percent_range (diffPercentage_in [] (bytes 70 xff) empty_baseline_world) = false.
Proof.
  split.
  { eexists. apply (vr_compared no_args over_world (bytes 70 x00) (bytes 70 xff) (bytes 70 xff));
      try reflexivity; vm_compute; try reflexivity; discriminate. }
  split; [vm_compute; reflexivity|].
  split; [vm_compute; reflexivity|].
  split; [vm_compute; reflexivity|].
  split; [vm_compute; reflexivity|].
  split.
  { eexists. apply (vr_compared no_args empty_baseline_world [] (bytes 70 xff) (bytes 70 xff));
      try reflexivity; vm_compute; try reflexivity; discriminate. }
  split; vm_compute; reflexivity.
Qed.

(** ** C6: existing baselines are left alone *)



(** ** C7: update overwrites *)

(** C7: update_baseline writes the screenshot it takes to
    [baseline_{name}_{viewport}.png] in the baseline directory, the path
    visual_regression looks the baseline up at, whatever was stored there
    before; afterwards the lookup yields the new snapshot. *)
Theorem update_overwrites_baseline args w img :
  launch_ok w = true -> goto_ok w = true ->
  page w (shots w) = Some img ->
  exists r w',
    updateBaseline args w = (Return r, w') /\
    r = [("success", VBool true); ("baseline", VStr (baseline_path args));
         ("message", VStr "Baseline updated")] /\
    fs w' !! join BASELINES_DIR
               ("baseline_" +:+ name_of args +:+ "_" +:+ viewport_of args +:+ ".png")
      = Some img /\
    baseline_of args w' = Some img.
Proof.
  intros Hl Hg Hp.
  cbv beta zeta delta [updateBaseline try_finally mbind M_bind mret M_ret
    getBrowser getPage browser_close page_screenshot].
  rewrite Hl. world_simpl. rewrite Hg. world_simpl. rewrite Hp. world_simpl.
  eexists _, _. split; [reflexivity|]. split; [reflexivity|].
  unfold baseline_of, baseline_path. world_simpl.
  split; apply lookup_insert_eq.
Qed.

Lemma update_overwrites_baseline_witness :
  baseline_of no_args small_world = Some small_baseline /\
  exists r w',
    updateBaseline no_args small_world = (Return r, w') /\
    r = [("success", VBool true); ("baseline", VStr (baseline_path no_args));
         ("message", VStr "Baseline updated")] /\
    fs w' !! join BASELINES_DIR
               ("baseline_" +:+ name_of no_args +:+ "_" +:+ viewport_of no_args +:+ ".png")
      = Some small_current /\
    baseline_of no_args w' = Some small_current.
Proof.
  split; [vm_compute; reflexivity|].
  apply (update_overwrites_baseline no_args small_world small_current); reflexivity.
Defined.

(** ** C8: the size difference *)

(** C8, as stated, fails on the code: the snapshot is one byte longer than
    the 25000-byte baseline, the result is a verdict, and its sizeDiff reads
    "0.00%". *)
Lemma small_size_change_reads_zero :
  baseline_of no_args grown_world = Some (bytes 25000 x00) /\
  page grown_world (shots grown_world) = Some (bytes 25001 x00) /\
  length (bytes 25000 x00) <> length (bytes 25001 x00) /\
  exists r w',
    visualRegression no_args grown_world = (Return r, w') /\
    (get "status" r = Some (VStr "passed") \/ get "status" r = Some (VStr "failed")) /\
    get "sizeDiff" r = Some (VStr "0.00%").
Proof.
  assert (Hb : baseline_of no_args grown_world = Some (bytes 25000 x00))
    by apply lookup_singleton_eq.
  split; [exact Hb|]. split; [reflexivity|].
  split; [rewrite !length_bytes; intros H; apply N2Nat.inj in H; discriminate H|].
  exists (compared_result no_args grown_world (bytes 25000 x00) (bytes 25001 x00)),
         (after_compared no_args grown_world (bytes 25000 x00) (bytes 25001 x00)).
  split; [|split].
  - apply (vr_compared no_args grown_world _ _ (bytes 25001 x00));
      [reflexivity | reflexivity | reflexivity | exact Hb | | reflexivity].
    vm_compute; discriminate.
  - apply compared_status_cases.
  - destruct (compared_fields no_args grown_world (bytes 25000 x00) (bytes 25001 x00))
      as (_ & _ & _ & _ & ->).
    unfold sizeDiffOf. rewrite !length_bytes.
    vm_compute; reflexivity.
Qed.

(** C8 (amended): every [passed] or [failed] result exposes sizeDiff as a
    text: the relative size delta |len(baseline) - len(current)| /
    len(baseline), times 100, printed with two decimals and a percent sign
    (so a delta below 0.005 percent of the baseline length reads "0.00%"). *)
Theorem size_delta_is_reported_as_percent_text args w b cur r w' :
  baseline_of args w = Some b ->
  page w (shots w) = Some cur ->
  visualRegression args w = (Return r, w') ->
  get "status" r = Some (VStr "passed") \/ get "status" r = Some (VStr "failed") ->
  get "sizeDiff" r =
    Some (VStr (Js.toFixed2
                  ((PrimFloat.abs (Js.of_nat (length b) - Js.of_nat (length cur))
                    / Js.of_nat (length b)) * 100)%float +:+ "%")).
Proof.
  intros Hb Hp Hrun Hst. apply vr_returns_inv in Hrun as (_ & _ & Hret).
  destruct (verdict_inv _ _ _ _ Hret Hst) as (b' & cur' & cmp & Hp' & Hb' & _ & _ & -> & _).
  simplify_eq. apply compared_fields.
Qed.

Lemma size_delta_is_reported_as_percent_text_witness :
  get "sizeDiff" (compared_result no_args longer_world small_baseline longer_current) =
    Some (VStr (Js.toFixed2
                  ((PrimFloat.abs (Js.of_nat (length small_baseline)
                                   - Js.of_nat (length longer_current))
                    / Js.of_nat (length small_baseline)) * 100)%float +:+ "%")).
Proof.
  apply (size_delta_is_reported_as_percent_text no_args longer_world
           small_baseline longer_current
           (compared_result no_args longer_world small_baseline longer_current)
           (after_compared no_args longer_world small_baseline longer_current)).
  - vm_compute; reflexivity.
  - vm_compute; reflexivity.
  - vm_compute; reflexivity.
  - left. vm_compute; reflexivity.
Defined.

(** One byte more on four: the run passes, and the size delta reads 25.00%. *)
Example one_more_byte_on_four :
  exists w',
    visualRegression no_args longer_world =
      (Return [("success", VBool true); ("status", VStr "passed");
               ("diffPercentage", VNum 0%float); ("threshold", VNum 0.1%float);
               ("baseline", VStr (baseline_path no_args));
               ("current", VStr (current_path no_args longer_world));
               ("diff", VStr (diff_path no_args longer_world));
               ("sizeDiff", VStr "25.00%")], w').
Proof.
  exists (after_compared no_args longer_world small_baseline longer_current).
  vm_compute; reflexivity.
Qed.

(** ** C9: the verdict is taken before rounding *)

(** C9: the status of a comparison is decided on the unrounded
    diffPercentage, while the reported diffPercentage is that value rounded
    to two decimals; so a result can be [failed] although its reported
    diffPercentage does not exceed its reported threshold.  With one
    mismatch among 975 samples the difference is 0.10256..., the default
    threshold is 0.1, the report says 0.1 and the status is [failed]; and
    a difference of 0.104 against the threshold 0.1 is likewise rejected and
    rounded to 0.1. *)
Theorem verdict_uses_unrounded_difference :
  (forall args w b cur r w',
     baseline_of args w = Some b ->
     page w (shots w) = Some cur ->
     MD5.digest_hex b <> MD5.digest_hex cur ->
     visualRegression args w = (Return r, w') ->
     get "status" r =
       Some (VStr (if (diffPercentage_in b cur w <=? threshold_of args)%float
                   then "passed" else "failed")) /\
     get "diffPercentage" r =
       Some (VNum (Js.Math_round (diffPercentage_in b cur w * 100) / 100)%float) /\
     get "threshold" r = Some (VNum (threshold_of args))) /\
  (exists r w' reported,
     visualRegression no_args one_in_975_world = (Return r, w') /\
     diffPercentage_in one_in_975_baseline one_in_975_current one_in_975_world
       = 0.10256410256410256%float /\
     get "status" r = Some (VStr "failed") /\
     get "diffPercentage" r = Some (VNum reported) /\
     get "threshold" r = Some (VNum 0.1%float) /\
     (reported <=? 0.1)%float = true) /\
  ((0.104 <=? 0.1)%float = false /\
   (Js.Math_round (0.104 * 100) / 100)%float = 0.1%float).
Proof.
  split; [|split].
  - intros args w b cur r w' Hb Hp Hh Hrun.
    apply vr_returns_inv in Hrun as (_ & _ & Hret).
    destruct Hret as [cur' Hp' Hb'|b' cur' Hp' Hb' Hh'|b' cur' cmp Hp' Hb' Hh' Hp2];
      simplify_eq; try done.
  - assert (Hd : diffPercentage_in one_in_975_baseline one_in_975_current one_in_975_world
                 = 0.10256410256410256%float) by (vm_compute; reflexivity).
    exists (compared_result no_args one_in_975_world one_in_975_baseline one_in_975_current),
           (after_compared no_args one_in_975_world one_in_975_baseline one_in_975_current),
           0.1%float.
    split.
    { apply (vr_compared no_args one_in_975_world _ _ one_in_975_current);
        [reflexivity | reflexivity | reflexivity | apply lookup_singleton_eq
        | vm_compute; discriminate | reflexivity]. }
    split; [exact Hd|].
    destruct (compared_fields no_args one_in_975_world one_in_975_baseline one_in_975_current)
      as (-> & -> & -> & _).
    rewrite Hd. repeat split; vm_compute; reflexivity.
  - split; vm_compute; reflexivity.
Qed.

Lemma verdict_uses_unrounded_difference_witness :
  get "status" (compared_result no_args small_world small_baseline small_current) =
    Some (VStr (if (diffPercentage_in small_baseline small_current small_world
                      <=? threshold_of no_args)%float
                then "passed" else "failed")) /\
  get "diffPercentage" (compared_result no_args small_world small_baseline small_current) =
    Some (VNum (Js.Math_round
                  (diffPercentage_in small_baseline small_current small_world * 100)
                / 100)%float) /\
  get "threshold" (compared_result no_args small_world small_baseline small_current)
    = Some (VNum (threshold_of no_args)).
Proof.
  refine (proj1 verdict_uses_unrounded_difference no_args small_world
            small_baseline small_current
            (compared_result no_args small_world small_baseline small_current)
            (after_compared no_args small_world small_baseline small_current)
            _ _ _ _).
  - vm_compute; reflexivity.
  - vm_compute; reflexivity.
  - vm_compute; discriminate.
  - vm_compute; reflexivity.
Defined.

(** ** C10: the diff path *)



(** * Further properties *)

(** * Further properties of the baseline tools *)

(** ** The time stamp *)

Lemma dashed_length s : String.length (dashed s) = String.length s.
Proof.
  unfold dashed. induction s as [|c s IH]; [reflexivity|]. simpl. by rewrite IH.
Qed.

Lemma substring_0_chars n s c :
  In c (list_ascii_of_string (String.substring 0 n s)) -> In c (list_ascii_of_string s).
Proof.
  revert s. induction n as [|n IH]; intros [|a s]; simpl; try tauto.
  intros [->|H]; [by left|]. right. by apply IH.
Qed.

Lemma substring_0_length n s :
  String.length (String.substring 0 n s) = Nat.min n (String.length s).
Proof.
  revert s. induction n as [|n IH]; intros [|a s]; simpl; try reflexivity.
  by rewrite IH.
Qed.

Lemma dashed_chars s c :
  In c (list_ascii_of_string (dashed s)) -> c <> ":"%char /\ c <> "."%char.
Proof.
  unfold dashed. rewrite list_ascii_of_string_of_list_ascii, in_map_iff.
  intros (a & <- & _).
  destruct (Ascii.eqb_spec a ":") as [->|Hc]; [split; discriminate|].
  destruct (Ascii.eqb_spec a ".") as [->|Hd]; [split; discriminate|].
  simpl. done.
Qed.

(** X1: the time stamp of a file name has at most 19 characters (exactly 19
    for an ISO instant) and contains neither a colon nor a dot, whatever the
    clock says; reading it advances the clock and changes nothing else. *)
Theorem timestamp_is_short_and_colon_free w :
  exists ts,
    timestamp w = (Return ts, with_ticks (S (ticks w)) w) /\
    String.length ts = Nat.min 19 (String.length (clock w (ticks w))) /\
    forall c, In c (list_ascii_of_string ts) -> c <> ":"%char /\ c <> "."%char.
Proof.
  eexists. split; [reflexivity|]. unfold slice0. split.
  - by rewrite substring_0_length, dashed_length.
  - intros c Hc. by eapply dashed_chars, substring_0_chars.
Qed.

(** ** compare_baseline *)

(** X2: compare_baseline for a key without baseline answers
    [{success: false, error: 'Baseline not found: ...'}] and does nothing
    else: no browser is started, no screenshot taken, no file written (unlike
    visual_regression, it never creates the baseline). *)
Theorem compare_without_baseline_does_nothing args w :
  baseline_of args w = None ->
  compareToBaseline args w =
    (Return [("success", VBool false);
             ("error", VStr ("Baseline not found: " +:+ name_of args
                             +:+ ". Run save_baseline first."))], w).
Proof.
  unfold baseline_of. intros Hb.
  cbv beta zeta delta [compareToBaseline mbind M_bind mret M_ret existsSync].
  fold (name_of args) (viewport_of args). fold (baseline_path args).
  rewrite Hb. rewrite bool_decide_eq_false_2 by (intros [? ?]; discriminate).
  reflexivity.
Qed.

Lemma compare_without_baseline_does_nothing_witness :
  compareToBaseline no_args fresh_world =
    (Return [("success", VBool false);
             ("error", VStr ("Baseline not found: " +:+ name_of no_args
                             +:+ ". Run save_baseline first."))], fresh_world).
Proof.
  apply (compare_without_baseline_does_nothing no_args fresh_world).
  vm_compute; reflexivity.
Defined.



(** ** save_baseline and update_baseline *)

(** X4: save_baseline does not protect an existing baseline: on every
    world it has exactly the effect of update_baseline (same files, same
    failures), and when the screenshot succeeds the baseline of the key is
    the new image whatever was stored before. *)
Theorem save_has_the_effect_of_update args w :
  snd (saveBaseline args w) = snd (updateBaseline args w) /\
  (forall e, fst (saveBaseline args w) = Throw e <-> fst (updateBaseline args w) = Throw e) /\
  (forall img,
     launch_ok w = true -> goto_ok w = true -> page w (shots w) = Some img ->
     exists r,
       saveBaseline args w = (Return r, snd (saveBaseline args w)) /\
       get "baseline" r = Some (VStr (baseline_path args)) /\
       baseline_of args (snd (saveBaseline args w)) = Some img).
Proof.
  cbv beta zeta delta [saveBaseline updateBaseline try_finally mbind M_bind mret M_ret
    getBrowser getPage browser_close page_screenshot].
  fold (name_of args) (viewport_of args). fold (baseline_path args).
  destruct (launch_ok w); world_simpl.
  2: { split; [done|]. split; [done|]. intros; discriminate. }
  destruct (goto_ok w); world_simpl.
  2: { split; [done|]. split; [done|]. intros; discriminate. }
  destruct (page w (shots w)) as [img0|]; world_simpl.
  2: { split; [done|]. split; [done|]. intros; discriminate. }
  split; [done|]. split; [split; intros; discriminate|].
  intros img _ _ [= ->]. eexists. split; [reflexivity|]. split; [reflexivity|].
  unfold baseline_of. world_simpl. apply lookup_insert_eq.
Qed.

(** The run of update_baseline when the screenshot succeeds. *)
Lemma update_overwrites_baseline' args w img :
  launch_ok w = true -> goto_ok w = true -> page w (shots w) = Some img ->
  exists r w',
    updateBaseline args w = (Return r, w') /\
    w' = after_capture_to (baseline_path args) img w /\
    baseline_of args w' = Some img.
Proof.
  intros Hl Hg Hp.
  cbv beta zeta delta [updateBaseline try_finally mbind M_bind mret M_ret
    getBrowser getPage browser_close page_screenshot].
  fold (name_of args) (viewport_of args). fold (baseline_path args).
  rewrite Hl. world_simpl. rewrite Hg. world_simpl. rewrite Hp. world_simpl.
  eexists _, _. split; [reflexivity|]. split.
  - unfold after_capture_to. destruct w; reflexivity.
  - unfold baseline_of. world_simpl. apply lookup_insert_eq.
Qed.

(** The run of save_baseline when the screenshot succeeds. *)
Lemma saveBaseline_run args w img :
  launch_ok w = true -> goto_ok w = true -> page w (shots w) = Some img ->
  saveBaseline args w =
    (Return [("success", VBool true); ("baseline", VStr (baseline_path args));
             ("name", VStr (name_of args)); ("viewport", VStr (viewport_of args))],
     after_capture_to (baseline_path args) img w).
Proof.
  intros Hl Hg Hp.
  cbv beta zeta delta [saveBaseline try_finally mbind M_bind mret M_ret
    getBrowser getPage browser_close page_screenshot].
  fold (name_of args) (viewport_of args). fold (baseline_path args).
  rewrite Hl. world_simpl. rewrite Hg. world_simpl. rewrite Hp. world_simpl.
  unfold after_capture_to. destruct w; reflexivity.
Qed.

Lemma save_has_the_effect_of_update_witness :
  exists r,
    saveBaseline no_args small_world = (Return r, snd (saveBaseline no_args small_world)) /\
    get "baseline" r = Some (VStr (baseline_path no_args)) /\
    baseline_of no_args (snd (saveBaseline no_args small_world)) = Some small_current.
Proof.
  apply (proj2 (proj2 (save_has_the_effect_of_update no_args small_world)) small_current);
    reflexivity.
Defined.

(** ** Runs one after the other *)



(** X6: after update_baseline, visual_regression compares against the new
    snapshot: if the page still yields the bytes update_baseline stored, the
    run reports [identical], whatever the baseline was before the update. *)
Theorem regression_after_update_is_identical args w img :
  launch_ok w = true -> goto_ok w = true ->
  page w (shots w) = Some img ->
  page w (S (shots w)) = Some img ->
  exists r1 w1 w2,
    updateBaseline args w = (Return r1, w1) /\
    visualRegression args w1 = (Return identical_result, w2) /\
    baseline_of args w2 = Some img.
Proof.
  intros Hl Hg Hp Hp2.
  destruct (update_overwrites_baseline' args w img Hl Hg Hp) as (r1 & w1 & Hrun & Hw1 & Hb1).
  exists r1, w1, (after_identical args w1 img).
  assert (Hid : visualRegression args w1 = (Return identical_result, after_identical args w1 img)).
  { subst w1. by apply (vr_identical args _ img img). }
  split; [exact Hrun|]. split; [exact Hid|].
  eapply vr_preserves_baselines; [exact Hb1|exact Hid].
Qed.

Lemma regression_after_update_is_identical_witness :
  exists r1 w1 w2,
    updateBaseline no_args unchanged_world = (Return r1, w1) /\
    visualRegression no_args w1 = (Return identical_result, w2) /\
    baseline_of no_args w2 = Some small_baseline.
Proof.
  apply (regression_after_update_is_identical no_args unchanged_world small_baseline);
    reflexivity.
Defined.

(** ** What a regression run leaves in the diffs directory *)



(** ** The sampling loop *)

(** The loop draws one random number per started group of four. *)
Lemma sample_loop_draws fuel b c s i k w :
  (s <= i + 4 * fuel)%nat ->
  exists n, sample_loop fuel b c s i k w
            = (Return n, with_draws (draws w + (s + 3 - i) / 4) w).
Proof.
  revert i k w. induction fuel as [|fuel IH]; intros i k w Hfuel; cbn [sample_loop].
  - exists k. replace ((s + 3 - i) / 4)%nat with 0%nat
      by (symmetry; apply Nat.div_small; lia).
    rewrite Nat.add_0_r. destruct w; reflexivity.
  - destruct (Nat.ltb_spec i s) as [Hlt|Hge].
    + unfold mbind, M_bind, Math_random.
      match goal with |- context [sample_loop fuel b c s ?i' ?k' ?w'] =>
        destruct (IH i' k' w' ltac:(lia)) as (n & ->) end.
      exists n. world_simpl.
      assert ((s + 3 - i) / 4 = S ((s + 3 - (i + 4)) / 4))%nat as ->.
      { replace (s + 3 - i)%nat with ((s + 3 - (i + 4)) + 1 * 4)%nat by lia.
        rewrite Nat.div_add by lia. lia. }
      destruct w; unfold with_draws; world_simpl. do 2 f_equal. lia.
    + exists k. replace ((s + 3 - i) / 4)%nat with 0%nat
        by (symmetry; apply Nat.div_small; lia).
      rewrite Nat.add_0_r. destruct w; reflexivity.
Qed.

(** X8: the difference estimate looks at ceil(sampleSize / 4) byte
    positions, where sampleSize is the smaller file length capped at 10000:
    a comparison draws exactly that many random numbers, never more than
    2500, however large the files are. *)
Theorem comparison_draws_a_bounded_sample b cur w :
  draws_after b cur w = (draws w + (sampleSizeOf b cur + 3) / 4)%nat /\
  (draws_after b cur w <= draws w + 2500)%nat.
Proof.
  unfold draws_after.
  destruct (sample_loop_draws (sampleSizeOf b cur) b cur (sampleSizeOf b cur) 0 0 w
              ltac:(lia)) as (n & ->).
  world_simpl. rewrite Nat.sub_0_r. split; [reflexivity|].
  assert (sampleSizeOf b cur <= 10000)%nat by (unfold sampleSizeOf; lia).
  assert ((sampleSizeOf b cur + 3) / 4 <= (10000 + 3) / 4)%nat
    by (apply Nat.Div0.div_le_mono; lia).
  change ((10000 + 3) / 4)%nat with 2500%nat in *. lia.
Qed.

(** ** The browser is released *)

Lemma capture_tool_releases_browser (body : M Obj) w o w' :
  (forall w0 o1 w1, body w0 = (o1, w1) -> browsers w1 = browsers w0) ->
  (_ ← getBrowser; try_finally body browser_close) w = (o, w') ->
  browsers w' = browsers w.
Proof.
  intros Hbody. cbv beta delta [mbind M_bind getBrowser try_finally browser_close].
  destruct (launch_ok w); [|by intros [= <- <-]].
  destruct (body _) as [o1 w1] eqn:Hrun. apply Hbody in Hrun.
  intros [= <- <-]. world_simpl. rewrite Hrun. reflexivity.
Qed.

Lemma saveBaseline_releases_browser args w o w' :
  saveBaseline args w = (o, w') -> browsers w' = browsers w.
Proof.
  apply capture_tool_releases_browser. intros w0 o1 w1.
  cbv beta zeta delta [mbind M_bind mret M_ret getPage page_screenshot].
  destruct (goto_ok w0); [|by intros [= <- <-]].
  destruct (page w0 (shots w0)); by intros [= <- <-].
Qed.

Lemma updateBaseline_releases_browser args w o w' :
  updateBaseline args w = (o, w') -> browsers w' = browsers w.
Proof.
  apply capture_tool_releases_browser. intros w0 o1 w1.
  cbv beta zeta delta [mbind M_bind mret M_ret getPage page_screenshot].
  destruct (goto_ok w0); [|by intros [= <- <-]].
  destruct (page w0 (shots w0)); by intros [= <- <-].
Qed.

Lemma compareToBaseline_releases_browser args w o w' :
  compareToBaseline args w = (o, w') -> browsers w' = browsers w.
Proof.
  cbv beta zeta delta [compareToBaseline].
  unfold mbind at 1, M_bind at 1, existsSync.
  destruct (negb _); [by intros [= <- <-]|].
  apply capture_tool_releases_browser. intros w0 o1 w1.
  cbv beta zeta delta [mbind M_bind mret M_ret getPage timestamp page_screenshot].
  destruct (goto_ok w0); [|by intros [= <- <-]].
  world_simpl.
  destruct (page w0 (shots w0)); by intros [= <- <-].
Qed.

(** X9: every baseline tool closes the browser it starts, on every path:
    after save_baseline, compare_baseline, visual_regression,
    update_baseline or list_baselines, run through the dispatcher, as many
    browsers are open as before, whether the tool returned or threw (and
    likewise for a tool name the table does not know). *)
Theorem baseline_tools_release_the_browser tool args w o w' :
  handleTool [] tool args w = (o, w') -> browsers w' = browsers w.
Proof.
  apply (handleTool_world [] tool args w o w' (fun w0 => browsers w0 = browsers w)); [done|].
  intros fn o1 w1 Hlook Hrun. cbn in Hlook.
  repeat match type of Hlook with
         | (if String.eqb ?a ?b then _ else _) = _ =>
             destruct (String.eqb_spec a b); simplify_eq
         end.
  - by eapply saveBaseline_releases_browser.
  - by eapply compareToBaseline_releases_browser.
  - by eapply vr_releases_browser.
  - by eapply updateBaseline_releases_browser.
  - destruct (listBaselines_reads_only args w) as [r Hr].
    rewrite Hr in Hrun. by injection Hrun as <- <-.
Qed.

Lemma baseline_tools_release_the_browser_witness :
  browsers (snd (handleTool [] "visual_regression" no_args no_capture_world))
  = browsers no_capture_world.
Proof.
  apply (baseline_tools_release_the_browser "visual_regression" no_args no_capture_world
           (fst (handleTool [] "visual_regression" no_args no_capture_world))).
  vm_compute; reflexivity.
Defined.

(** ** Failures at the dispatcher *)

(** X10: when a tool throws, the dispatcher answers with an object whose
    [error] is the message of the exception and whose [stack], if the
    exception has one, holds its first three lines at most; there is no
    [success] property, and whatever the tool did before it failed stays
    done (the world is the one the tool left). *)
Theorem tool_failure_becomes_error_object other name fn args w e w1 :
  assoc name (tools other) = Some fn ->
  fn args w = (Throw e, w1) ->
  exists r,
    handleTool other name args w = (Return r, w1) /\
    get "error" r = Some (VStr (err_message w1 e)) /\
    get "success" r = None /\
    match err_stack w1 e with
    | Some s => exists lines, get "stack" r = Some (VArr (map VStr lines)) /\
                              lines = firstn 3 (split_on "010" s) /\
                              (length lines <= 3)%nat
    | None => get "stack" r = None
    end.
Proof.
  intros Hlook Hrun. unfold handleTool. rewrite Hlook.
  unfold try_catch. rewrite Hrun. unfold report_error.
  eexists. split; [reflexivity|]. split; [reflexivity|].
  destruct (err_stack w1 e) as [s|]; (split; [reflexivity|]); [|done].
  exists (firstn 3 (split_on "010" s)). split; [reflexivity|]. split; [reflexivity|].
  rewrite length_take. lia.
Qed.

Lemma tool_failure_becomes_error_object_witness :
  exists r,
    handleTool [] "visual_regression" no_args no_capture_world
      = (Return r, with_shots 1 (with_ticks 1 no_capture_world)) /\
    get "error" r = Some (VStr "") /\
    get "success" r = None /\
    get "stack" r = None.
Proof.
  apply (tool_failure_becomes_error_object [] "visual_regression" visualRegression
           no_args no_capture_world CaptureError
           (with_shots 1 (with_ticks 1 no_capture_world))).
  - reflexivity.
  - vm_compute; reflexivity.
Defined.

(** ** list_baselines *)

Lemma has_char_app c a b : has_char c (a +:+ b) = has_char c a || has_char c b.
Proof. induction a as [|x a IH]; simpl; [reflexivity|]. by rewrite IH, orb_assoc. Qed.

Lemma split_on_no_sep sep s : has_char sep s = false -> split_on sep s = [s].
Proof.
  induction s as [|c s IH]; simpl; [reflexivity|].
  intros [Hc Hs]%orb_false_iff. rewrite Hc, (IH Hs). reflexivity.
Qed.

Lemma substring_skip a b : String.substring (String.length a) (String.length b) (a +:+ b) = b.
Proof.
  induction a as [|x a IH]; [|exact IH].
  change ("" +:+ b) with b. change (String.length "") with 0%nat.
  induction b as [|y b IHb]; [reflexivity|].
  cbn [String.length String.substring]. by rewrite IHb.
Qed.

Lemma length_app_string a b :
  String.length (a +:+ b) = (String.length a + String.length b)%nat.
Proof.
  induction a as [|x a IH]; [reflexivity|].
  change (String x a +:+ b) with (String x (a +:+ b)).
  cbn [String.length]. by rewrite IH.
Qed.

Lemma endsWith_app s suffix : endsWith (s +:+ suffix) suffix = true.
Proof.
  unfold endsWith. rewrite length_app_string.
  replace (String.length s + String.length suffix - String.length suffix)%nat
    with (String.length s) by lia.
  rewrite substring_skip, String.eqb_refl, andb_true_r.
  apply Nat.leb_le. lia.
Qed.

Lemma replace_first_png s : has_char "." s = false -> replace_first ".png" "" (s +:+ ".png") = s.
Proof.
  induction s as [|c s IH]; [reflexivity|].
  simpl has_char. intros [Hc Hs]%orb_false_iff.
  change (String c s +:+ ".png") with (String c (s +:+ ".png")).
  cbn [replace_first strip_prefix].
  rewrite Ascii.eqb_sym, Hc. by rewrite (IH Hs).
Qed.

Lemma append_assoc_string a b c : (a +:+ b) +:+ c = a +:+ (b +:+ c).
Proof.
  induction a as [|x a IH]; [reflexivity|].
  change (String x a +:+ b) with (String x (a +:+ b)).
  change (String x (a +:+ b) +:+ c) with (String x ((a +:+ b) +:+ c)).
  by rewrite IH.
Qed.

Lemma strip_prefix_app p s : strip_prefix p (p +:+ s) = Some s.
Proof.
  induction p as [|x p IH]; [by destruct s|].
  change (String x p +:+ s) with (String x (p +:+ s)).
  cbn [strip_prefix]. by rewrite Ascii.eqb_refl.
Qed.

Lemma replace_first_prefix pat rep s : replace_first pat rep (pat +:+ s) = rep +:+ s.
Proof.
  assert (Hunfold : forall t, replace_first pat rep t =
            match strip_prefix pat t with
            | Some rest => rep +:+ rest
            | None => match t with
                      | EmptyString => EmptyString
                      | String c t' => String c (replace_first pat rep t')
                      end
            end) by (intros [|c t']; reflexivity).
  by rewrite Hunfold, strip_prefix_app.
Qed.

(** X11: a baseline stored by save_baseline shows up in list_baselines:
    for a name and a viewport without slash and dot, the list has the entry
    [{name: '{name}_{viewport}', path}] with the baseline's path, and
    [count] is the number of entries listed; listing changes nothing. *)
Theorem saved_baseline_is_listed args args' w img :
  plain (name_of args) -> plain (viewport_of args) ->
  launch_ok w = true -> goto_ok w = true ->
  page w (shots w) = Some img ->
  exists r1 w1 r2 items,
    saveBaseline args w = (Return r1, w1) /\
    listBaselines args' w1 = (Return r2, w1) /\
    get "baselines" r2 = Some (VArr items) /\
    In (listed_baseline args) items /\
    get "count" r2 = Some (VNum (Js.of_nat (length items))).
Proof.
  intros [Hn1 Hn2] [Hv1 Hv2] Hl Hg Hp.
  pose proof (saveBaseline_run args w img Hl Hg Hp) as Hsave.
  set (w1 := after_capture_to (baseline_path args) img w) in *.
  eexists _, w1. unfold listBaselines, mbind, M_bind, mret, M_ret, readdirSync.
  eexists _, _. split; [exact Hsave|]. split; [reflexivity|]. split; [reflexivity|].
  split; [|cbn [get String.eqb Ascii.eqb Bool.eqb]; by rewrite length_map].
  set (file := "baseline_" +:+ name_of args +:+ "_" +:+ viewport_of args +:+ ".png").
  apply in_map_iff. exists file. split.
  - assert (Hname : replace_first ".png" "" (replace_first "baseline_" "" file)
                    = name_of args +:+ "_" +:+ viewport_of args).
    { subst file. rewrite replace_first_prefix. change ("" +:+ ?x) with x.
      replace (name_of args +:+ "_" +:+ viewport_of args +:+ ".png")
        with ((name_of args +:+ "_" +:+ viewport_of args) +:+ ".png")
        by (by rewrite !append_assoc_string).
      rewrite replace_first_png; [reflexivity|].
      rewrite !has_char_app, Hn2, Hv2. reflexivity. }
    rewrite Hname. reflexivity.
  - apply list_elem_of_In, list_elem_of_filter. split.
    + subst file.
      replace ("baseline_" +:+ name_of args +:+ "_" +:+ viewport_of args +:+ ".png")
        with (("baseline_" +:+ name_of args +:+ "_" +:+ viewport_of args) +:+ ".png")
        by (by rewrite !append_assoc_string).
      apply endsWith_app.
    + apply list_elem_of_omap. exists (baseline_path args, img). split.
      * apply elem_of_map_to_list. subst w1. unfold after_capture_to. world_simpl.
        apply lookup_insert_eq.
      * cbn beta iota. unfold baseline_path. fold file. unfold join.
        rewrite <- append_assoc_string, strip_prefix_app.
        rewrite split_on_no_sep; [by rewrite bool_decide_eq_true_2|].
        subst file. rewrite !has_char_app, Hn1, Hv1. reflexivity.
Qed.

Lemma saved_baseline_is_listed_witness :
  exists r1 w1 r2 items,
    saveBaseline no_args fresh_world = (Return r1, w1) /\
    listBaselines no_args w1 = (Return r2, w1) /\
    get "baselines" r2 = Some (VArr items) /\
    In (listed_baseline no_args) items /\
    get "count" r2 = Some (VNum (Js.of_nat (length items))).
Proof.
  apply (saved_baseline_is_listed no_args no_args fresh_world small_current).
  - split; reflexivity.
  - split; reflexivity.
  - reflexivity.
  - reflexivity.
  - reflexivity.
Defined.

(** * Metrics history *)

Lemma slice_from_last {A} (n : nat) (l : list A) :
  (0 < n)%nat ->
  slice_from (- Z.of_nat n) l = skipn (length l - n) l /\
  length (slice_from (- Z.of_nat n) l) = Nat.min n (length l).
Proof.
  intros Hn. unfold slice_from.
  destruct (Z.ltb_spec (- Z.of_nat n) 0) as [_|?]; [|lia].
  replace (Z.to_nat (Z.max (Z.of_nat (length l) + - Z.of_nat n) 0))
    with (length l - n)%nat by lia.
  split; [reflexivity|]. rewrite length_skipn. lia.
Qed.

Lemma slice_from_zero {A} (l : list A) : slice_from 0 l = l.
Proof. unfold slice_from. simpl. by rewrite Z.min_l by lia. Qed.

Lemma slice_from_pos {A} (n : nat) (l : list A) :
  slice_from (Z.of_nat n) l = skipn n l.
Proof.
  unfold slice_from. destruct (Z.ltb_spec (Z.of_nat n) 0) as [?|_]; [lia|].
  destruct (Nat.le_gt_cases n (length l)).
  - by rewrite Z.min_l, Nat2Z.id by lia.
  - rewrite Z.min_r, Nat2Z.id by lia. by rewrite !skipn_all2 by lia.
Qed.

Lemma history_file_inj a b : history_file a = history_file b -> a = b.
Proof.
  unfold history_file, join. intros H.
  assert (Hcancel : forall p x y, p +:+ x = p +:+ y -> x = y).
  { induction p as [|c p IH]; intros x y Hxy; [exact Hxy|].
    injection Hxy as Hxy. by apply IH. }
  apply Hcancel, (Hcancel "/"), (Hcancel "metrics_") in H.
  assert (Hlen : String.length a = String.length b).
  { apply (f_equal String.length) in H. rewrite !length_app_string in H. simpl in H. lia. }
  clear Hcancel. revert b H Hlen.
  induction a as [|c a IH]; intros [|d b] H Hlen; try discriminate; [reflexivity|].
  injection H as -> H. f_equal. apply IH; [exact H|]. simpl in Hlen. lia.
Qed.



Lemma getMetricsHistory_run (parse : Buffer -> Error + list Metrics) args w text h :
  fs w !! history_file (default "default" (h_name args)) = Some text ->
  parse text = inr h ->
  getMetricsHistory parse args w =
    (Return [("success", VBool true);
             ("history", VArr (map metrics_value (slice_from (- default 20%Z (h_limit args)) h)));
             ("total", VNum (Js.of_nat (length h)))], w).
Proof.
  intros Hf Hp.
  cbv beta zeta delta [getMetricsHistory mbind M_bind mret M_ret existsSync readFileSync throw].
  fold (history_file (default "default" (h_name args))).
  rewrite Hf, bool_decide_eq_true_2 by eauto. cbn [negb]. cbv beta. rewrite Hf.
  cbv beta iota zeta. by rewrite Hp.
Qed.



(** X13: get_history on a readable file changes nothing and reports
    the number of stored entries; what it shows is an end piece of the
    stored history: the last [limit] entries for a positive limit, the
    whole history for limit 0, and the history without its first
    [-limit] entries for a negative one. *)
Theorem history_limit_selects_latest_entries
    (parse : Buffer -> Error + list Metrics)
    (args : HistoryArgs) (w : World) (text : Buffer) (h : list Metrics) :
  fs w !! history_file (default "default" (h_name args)) = Some text ->
  parse text = inr h ->
  exists shown dropped,
    getMetricsHistory parse args w =
      (Return [("success", VBool true);
               ("history", VArr (map metrics_value shown));
               ("total", VNum (Js.of_nat (length h)))], w) /\
    h = dropped ++ shown /\
    ((0 < default 20 (h_limit args))%Z ->
       length shown = Nat.min (Z.to_nat (default 20%Z (h_limit args))) (length h)) /\
    (default 20%Z (h_limit args) = 0%Z -> shown = h) /\
    ((default 20 (h_limit args) < 0)%Z ->
       length dropped = Nat.min (Z.to_nat (- default 20%Z (h_limit args))) (length h)).
Proof.
  intros Hf Hp.
  set (limit := default 20%Z (h_limit args)).
  exists (slice_from (- limit) h),
         (firstn (length h - length (slice_from (- limit) h)) h).
  split; [exact (getMetricsHistory_run parse args w text h Hf Hp)|].
  assert (Hslice : slice_from (- limit) h
                   = skipn (length h - length (slice_from (- limit) h)) h).
  { unfold slice_from. cbv zeta. rewrite length_skipn.
    set (k := Z.to_nat _).
    assert (k <= length h)%nat by (subst k; destruct (Z.ltb_spec (- limit) 0); lia).
    f_equal. lia. }
  split; [rewrite Hslice at 2; by rewrite firstn_skipn|].
  split; [|split].
  - intros Hpos.
    replace (- limit)%Z with (- Z.of_nat (Z.to_nat limit))%Z by lia.
    apply slice_from_last. lia.
  - intros ->. apply slice_from_zero.
  - intros Hneg. rewrite length_take.
    replace (- limit)%Z with (Z.of_nat (Z.to_nat (- limit))) by lia.
    rewrite slice_from_pos, length_skipn. lia.
Qed.

Lemma history_limit_selects_latest_entries_witness :
  exists shown dropped,
    getMetricsHistory sample_parse (mkHistoryArgs None (Some 0%Z)) tracked_world =
      (Return [("success", VBool true);
               ("history", VArr (map metrics_value shown));
               ("total", VNum (Js.of_nat (length sample_history)))], tracked_world) /\
    sample_history = dropped ++ shown /\
    ((0 < 0)%Z -> length shown = Nat.min (Z.to_nat 0) (length sample_history)) /\
    (0%Z = 0%Z -> shown = sample_history) /\
    ((0 < 0)%Z -> length dropped = Nat.min (Z.to_nat (- 0)) (length sample_history)).
Proof.
  apply (history_limit_selects_latest_entries sample_parse (mkHistoryArgs None (Some 0%Z))
           tracked_world (sample_stringify sample_history) sample_history);
    reflexivity.
Defined.





(** * Screenshot tools *)

(** X16: a viewport name that is not in the table (and not an
    inherited property name) makes screenshot_hero fail with a TypeError
    after the page has loaded: nothing is captured or written.
    screenshot_full accepts the same name: it writes the capture to
    full_<name>_<time>.png and reports the name as given. *)
Theorem hero_rejects_a_viewport_that_full_accepts
    (viewport : string) (w : World) (img : Buffer) :
  launch_ok w = true -> goto_ok w = true ->
  VIEWPORTS_at viewport = Undefined ->
  page w (shots w) = Some img ->
  screenshotHero (Some viewport) w =
    (Throw (TypeError "Cannot read properties of undefined (reading 'width')"),
     with_ticks (S (ticks w)) w) /\
  exists r w',
    screenshotFull (Some viewport) w = (Return r, w') /\
    get "file" r = Some (VStr (full_path viewport w)) /\
    get "viewport" r = Some (VStr viewport) /\
    fs w' !! full_path viewport w = Some img /\
    browsers w' = browsers w.
Proof.
  intros Hl Hg Hv Himg. split.
  - unfold screenshotHero. change (default "desktop" (Some viewport)) with viewport.
    cbv beta zeta delta [try_finally mbind M_bind mret M_ret
      getBrowser getPage timestamp browser_close throw].
    rewrite Hl. world_simpl. rewrite Hg. world_simpl. rewrite Hv. world_simpl.
    apply pair_equal_spec; split; [reflexivity | destruct w; reflexivity].
  - unfold screenshotFull. change (default "desktop" (Some viewport)) with viewport.
    cbv beta zeta delta [try_finally mbind M_bind mret M_ret
      getBrowser getPage timestamp browser_close page_screenshot].
    rewrite Hl. world_simpl. rewrite Hg. world_simpl. rewrite Himg. world_simpl.
    eexists _, _. split; [reflexivity|]. world_simpl.
    split; [reflexivity|]. split; [reflexivity|].
    split; [|reflexivity].
    unfold full_path, stamp. by rewrite lookup_insert_eq.
Qed.

Lemma hero_rejects_a_viewport_that_full_accepts_witness :
  screenshotHero (Some "phone") steady_world =
    (Throw (TypeError "Cannot read properties of undefined (reading 'width')"),
     with_ticks (S (ticks steady_world)) steady_world) /\
  exists r w',
    screenshotFull (Some "phone") steady_world = (Return r, w') /\
    get "file" r = Some (VStr (full_path "phone" steady_world)) /\
    get "viewport" r = Some (VStr "phone") /\
    fs w' !! full_path "phone" steady_world = Some [x89; x50; x4e; x47] /\
    browsers w' = browsers steady_world.
Proof.
  apply (hero_rejects_a_viewport_that_full_accepts "phone" steady_world [x89; x50; x4e; x47]);
    reflexivity.
Defined.

Lemma stamp_after_tick i w w1 :
  clock w1 = clock w -> ticks w1 = S (ticks w) -> stamp i w1 = stamp (S i) w.
Proof. intros Hc Ht. unfold stamp. rewrite Hc, Ht. f_equal. f_equal. f_equal. lia. Qed.

(** One capture per viewport, in order, when the site loads and every
    capture succeeds. *)
Lemma comparison_loop_run viewports : forall results w,
  goto_ok w = true ->
  (forall k, (k < length viewports)%nat -> is_Some (page w (shots w + k))) ->
  exists items w',
    comparison_loop viewports results w = (Return (results ++ items), w') /\
    length items = length viewports /\
    (forall i vp, viewports !! i = Some vp ->
       items !! i = Some (comparison_entry vp i w) /\
       is_Some (fs w' !! compare_path vp i w)) /\
    (forall p, is_Some (fs w !! p) -> is_Some (fs w' !! p)) /\
    shots w' = (shots w + length viewports)%nat /\
    ticks w' = (ticks w + length viewports)%nat /\
    browsers w' = browsers w /\ clock w' = clock w /\ page w' = page w /\
    goto_ok w' = goto_ok w.
Proof.
  induction viewports as [|vp rest IH]; intros results w Hg Hpage.
  - exists [], w. simpl. rewrite app_nil_r, !Nat.add_0_r.
    repeat split; try done. all: intros i vp' Hi; by rewrite lookup_nil in Hi.
  - destruct (Hpage 0%nat ltac:(simpl; lia)) as [img Himg].
    rewrite Nat.add_0_r in Himg.
    set (path := compare_path vp 0 w).
    set (w1 := with_shots (S (shots w)) (with_fs (insert path img) (with_ticks (S (ticks w)) w))).
    assert (Hstep : forall res,
      comparison_loop (vp :: rest) res w
      = comparison_loop rest (res ++ [comparison_entry vp 0 w]) w1).
    { intros res. cbn [comparison_loop].
      cbv beta zeta delta [mbind M_bind newPage_goto timestamp page_screenshot].
      rewrite Hg. world_simpl. rewrite Himg. reflexivity. }
    destruct (IH (results ++ [comparison_entry vp 0 w]) w1) as (items & w' & Hrun & Hlen & Hitems
      & Hmono & Hshots & Hticks & Hb & Hc & Hp & Hgo).
    { exact Hg. }
    { intros k Hk. subst w1. world_simpl.
      replace (S (shots w) + k)%nat with (shots w + S k)%nat by lia.
      apply Hpage. simpl. lia. }
    exists (comparison_entry vp 0 w :: items), w'.
    split; [rewrite Hstep, Hrun; by rewrite <- app_assoc|].
    split; [simpl; by rewrite Hlen|].
    split.
    { intros [|i] vp' Hi.
      - injection Hi as <-. split; [reflexivity|].
        apply Hmono. subst w1. world_simpl. fold path. rewrite lookup_insert_eq. eauto.
      - simpl in Hi. destruct (Hitems i vp' Hi) as [Hit Hfile].
        assert (Hst : stamp i w1 = stamp (S i) w) by (by apply stamp_after_tick).
        unfold comparison_entry, compare_path in *. rewrite Hst in Hit, Hfile.
        split; [exact Hit | exact Hfile]. }
    split.
    { intros p Hp'. apply Hmono. subst w1. world_simpl.
      destruct (decide (p = path)) as [->|Hne].
      - rewrite lookup_insert_eq. eauto.
      - by rewrite lookup_insert_ne. }
    subst w1. world_simpl. simpl.
    repeat split; try done; lia.
Qed.

(** X17: screenshot_comparison, when the browser starts, the site
    loads and every capture succeeds: the result lists one entry per
    requested viewport, in the order requested, each naming
    compare_<viewport>_<time>.png, and each of these files exists
    afterwards; files that existed before still exist and the browser is
    closed. *)
Theorem comparison_captures_every_viewport_in_order
    (viewports : list string) (w : World) :
  launch_ok w = true -> goto_ok w = true ->
  (forall k, (k < length viewports)%nat -> is_Some (page w (shots w + k))) ->
  exists items w',
    screenshotComparison (Some viewports) w =
      (Return [("success", VBool true); ("comparisons", VArr items)], w') /\
    length items = length viewports /\
    (forall i vp, viewports !! i = Some vp ->
       items !! i = Some (comparison_entry vp i w) /\
       is_Some (fs w' !! compare_path vp i w)) /\
    (forall p, is_Some (fs w !! p) -> is_Some (fs w' !! p)) /\
    shots w' = (shots w + length viewports)%nat /\
    browsers w' = browsers w.
Proof.
  intros Hl Hg Hpage.
  destruct (comparison_loop_run viewports [] (with_browsers (S (browsers w)) w))
    as (items & w1 & Hrun & Hlen & Hitems & Hmono & Hshots & _ & Hb & _).
  { exact Hg. }
  { exact Hpage. }
  exists items, (with_browsers (pred (browsers w1)) w1).
  split.
  { unfold screenshotComparison.
    change (default ["desktop"; "tablet"; "mobile"] (Some viewports)) with viewports.
    cbv beta zeta delta [try_finally mbind M_bind mret M_ret getBrowser browser_close].
    rewrite Hl, Hrun. reflexivity. }
  world_simpl.
  split; [exact Hlen|].
  split; [exact Hitems|].
  split; [exact Hmono|].
  split; [exact Hshots|]. rewrite Hb. reflexivity.
Qed.

Lemma comparison_captures_every_viewport_in_order_witness :
  exists items w',
    screenshotComparison (Some ["mobile"; "desktop"]) steady_world =
      (Return [("success", VBool true); ("comparisons", VArr items)], w') /\
    length items = length ["mobile"; "desktop"] /\
    (forall i vp, ["mobile"; "desktop"] !! i = Some vp ->
       items !! i = Some (comparison_entry vp i steady_world) /\
       is_Some (fs w' !! compare_path vp i steady_world)) /\
    (forall p, is_Some (fs steady_world !! p) -> is_Some (fs w' !! p)) /\
    shots w' = (shots steady_world + length ["mobile"; "desktop"])%nat /\
    browsers w' = browsers steady_world.
Proof.
  apply (comparison_captures_every_viewport_in_order ["mobile"; "desktop"] steady_world);
    [reflexivity | reflexivity | intros k _; simpl; eauto].
Defined.

(** * Scores *)

Lemma calculateScores_run metrics totalTime viewport w :
  launch_ok w = true -> goto_ok w = true ->
  calculateScores metrics totalTime viewport w =
    (Return [("success", VBool true);
             ("scores",
              VObj [("performance", score_entry (performance (scores_of metrics totalTime)));
                    ("accessibility", score_entry (accessibility (scores_of metrics totalTime)));
                    ("bestPractices", score_entry (bestPractices (scores_of metrics totalTime)));
                    ("seo", score_entry (seo (scores_of metrics totalTime)))]);
             ("overall", VNum (Js.of_Z (overall_of (scores_of metrics totalTime))));
             ("details", details_of metrics)], w).
Proof.
  intros Hl Hg.
  cbv beta zeta delta [calculateScores try_finally mbind M_bind mret M_ret
    getBrowser getPage browser_close].
  rewrite Hl. world_simpl. rewrite Hg. world_simpl.
  apply pair_equal_spec; split; [reflexivity | destruct w; reflexivity].
Qed.

Lemma scores_bounds metrics totalTime :
  (0 <= totalTime)%Z ->
  (0 <= performance (scores_of metrics totalTime) <= 100)%Z /\
  (0 <= accessibility (scores_of metrics totalTime) <= 100)%Z /\
  (0 <= bestPractices (scores_of metrics totalTime) <= 100)%Z /\
  (0 <= seo (scores_of metrics totalTime) <= 100)%Z.
Proof.
  intros Ht. unfold scores_of. cbn [performance accessibility bestPractices seo].
  assert (0 <= totalTime / 50)%Z by (apply Z.div_pos; lia).
  assert (0 <= Z.of_nat (domElements metrics) / 100)%Z by (apply Z.div_pos; lia).
  repeat split; try lia.
  all: try (destruct (negb (h1Count metrics =? 1)%nat); lia).
  all: destruct (httpsUsed metrics), (noDoctype metrics), (hasViewport metrics),
         (hasTitle metrics), (hasDescription metrics), (hasCanonical metrics),
         (hasOG metrics); cbn; lia.
Qed.

(** X18: when the elapsed time is not negative, calculate_scores
    returns (if the browser starts and the site loads) four scores and an
    overall value that all lie between 0 and 100, and the overall value
    lies between the smallest and the largest of the four scores. *)
Theorem scores_stay_between_0_and_100
    (metrics : PageFacts) (totalTime : Z) (viewport : option string) (w : World) :
  launch_ok w = true -> goto_ok w = true ->
  (0 <= totalTime)%Z ->
  exists p a b s o rest,
    calculateScores metrics totalTime viewport w =
      (Return (("success", VBool true) ::
               ("scores",
                VObj [("performance", score_entry p); ("accessibility", score_entry a);
                      ("bestPractices", score_entry b); ("seo", score_entry s)]) ::
               ("overall", VNum (Js.of_Z o)) :: rest), w) /\
    (0 <= p <= 100)%Z /\ (0 <= a <= 100)%Z /\ (0 <= b <= 100)%Z /\ (0 <= s <= 100)%Z /\
    (Z.min (Z.min p a) (Z.min b s) <= o <= Z.max (Z.max p a) (Z.max b s))%Z.
Proof.
  intros Hl Hg Ht.
  destruct (scores_bounds metrics totalTime Ht) as (Hp & Ha & Hb & Hs).
  eexists _, _, _, _, _, _.
  split; [exact (calculateScores_run metrics totalTime viewport w Hl Hg)|].
  repeat (split; [assumption|]).
  unfold overall_of.
  set (p := performance _) in *. set (a := accessibility _) in *.
  set (b := bestPractices _) in *. set (s := seo _) in *.
  split.
  - apply Z.div_le_lower_bound; lia.
  - enough ((p + a + b + s + 2) / 4 < Z.max (Z.max p a) (Z.max b s) + 1)%Z by lia.
    apply Z.div_lt_upper_bound; lia.
Qed.

Lemma scores_stay_between_0_and_100_witness :
  exists p a b s o rest,
    calculateScores tidy_page 120 None steady_world =
      (Return (("success", VBool true) ::
               ("scores",
                VObj [("performance", score_entry p); ("accessibility", score_entry a);
                      ("bestPractices", score_entry b); ("seo", score_entry s)]) ::
               ("overall", VNum (Js.of_Z o)) :: rest), steady_world) /\
    (0 <= p <= 100)%Z /\ (0 <= a <= 100)%Z /\ (0 <= b <= 100)%Z /\ (0 <= s <= 100)%Z /\
    (Z.min (Z.min p a) (Z.min b s) <= o <= Z.max (Z.max p a) (Z.max b s))%Z.
Proof.
  apply (scores_stay_between_0_and_100 tidy_page 120 None steady_world);
    [reflexivity | reflexivity | lia].
Defined.

Lemma quarter_rounds_to_100 n : ((n + 2) / 4 = 100 <-> 398 <= n <= 401)%Z.
Proof.
  split.
  - intros H. pose proof (Z.div_mod (n + 2) 4 ltac:(lia)).
    pose proof (Z.mod_pos_bound (n + 2) 4 ltac:(lia)). lia.
  - intros H. symmetry. apply Z.div_unique with (r := (n + 2 - 400)%Z); lia.
Qed.

(** X19: with a non-negative elapsed time the overall score is 100
    exactly when accessibility, best practices and SEO are perfect (no
    image without alt text, no input without label, exactly one h1; https
    or file protocol, a doctype, a viewport meta; title, description,
    canonical link and og:title) and the performance score is at least 98:
    because of the rounding, up to two lost performance points do not
    show in the overall value. *)
Theorem overall_100_tolerates_two_performance_points
    (metrics : PageFacts) (totalTime : Z) :
  (0 <= totalTime)%Z ->
  overall_of (scores_of metrics totalTime) = 100%Z <->
  (totalTime / 50 + Z.of_nat (domElements metrics) / 100 <= 2)%Z /\
  imagesWithoutAlt metrics = 0%nat /\ inputsWithoutLabel metrics = 0%nat /\
  h1Count metrics = 1%nat /\
  httpsUsed metrics = true /\ noDoctype metrics = false /\ hasViewport metrics = true /\
  hasTitle metrics = true /\ hasDescription metrics = true /\
  hasCanonical metrics = true /\ hasOG metrics = true.
Proof.
  intros Ht.
  assert (Hq : (0 <= totalTime / 50)%Z) by (apply Z.div_pos; lia).
  assert (Hd : (0 <= Z.of_nat (domElements metrics) / 100)%Z) by (apply Z.div_pos; lia).
  unfold overall_of, scores_of. cbn [performance accessibility bestPractices seo].
  set (q := (totalTime / 50)%Z) in *.
  set (d := (Z.of_nat (domElements metrics) / 100)%Z) in *.
  destruct (Nat.eqb_spec (h1Count metrics) 1) as [Hh|Hh]; cbn [negb].
  all: destruct (httpsUsed metrics), (noDoctype metrics), (hasViewport metrics),
         (hasTitle metrics), (hasDescription metrics), (hasCanonical metrics),
         (hasOG metrics); cbn [negb].
  all: rewrite quarter_rounds_to_100.
  all: split;
    [ intros Ho; repeat split; try reflexivity; try assumption; lia
    | intros (Hp & Hi & Hn & Hh' & ? & ? & ? & ? & ? & ? & ?);
      try discriminate; try lia ].
Qed.

Lemma overall_100_tolerates_two_performance_points_witness :
  overall_of (scores_of tidy_page 120) = 100%Z <->
  (120 / 50 + Z.of_nat (domElements tidy_page) / 100 <= 2)%Z /\
  imagesWithoutAlt tidy_page = 0%nat /\ inputsWithoutLabel tidy_page = 0%nat /\
  h1Count tidy_page = 1%nat /\
  httpsUsed tidy_page = true /\ noDoctype tidy_page = false /\ hasViewport tidy_page = true /\
  hasTitle tidy_page = true /\ hasDescription tidy_page = true /\
  hasCanonical tidy_page = true /\ hasOG tidy_page = true.
Proof.
  apply (overall_100_tolerates_two_performance_points tidy_page 120). lia.
Defined.

(** * Breakpoint finder *)

(** The number of widths the loop visits from [width] on. *)
Lemma widths_left_step (width maxWidth step : Z) :
  (0 < step)%Z -> (width <= maxWidth)%Z ->
  (if (width + step <=? maxWidth)%Z then (maxWidth - (width + step)) / step + 1 else 0)%Z
  = ((maxWidth - width) / step)%Z.
Proof.
  intros Hs Hw.
  destruct (Z.leb_spec (width + step) maxWidth) as [Hle|Hgt].
  - replace (maxWidth - width)%Z with ((maxWidth - (width + step)) + 1 * step)%Z by lia.
    rewrite Z.div_add by lia. lia.
  - symmetry. apply Z.div_small. lia.
Qed.

(** With a positive step and captures that succeed the loop ends after
    the widths up to [maxWidth], whatever fuel is left over. *)
Lemma breakpoint_loop_run layouts maxWidth step :
  (0 < step)%Z ->
  forall (n : nat) fuel k width lastLayout breakpoints w,
    (forall j, is_Some (page w j)) ->
    Z.of_nat n = (if (width <=? maxWidth)%Z then (maxWidth - width) / step + 1 else 0)%Z ->
    (n < fuel)%nat ->
    exists found w',
      breakpoint_loop fuel layouts k width maxWidth step lastLayout breakpoints w
        = (Return (Some (breakpoints ++ found, (k + n)%nat)), w') /\
      (length found <= n)%nat /\
      (lastLayout = None -> (0 < n)%nat -> (length found < n)%nat) /\
      page w' = page w /\ browsers w' = browsers w /\
      (forall p, is_Some (fs w !! p) -> is_Some (fs w' !! p)).
Proof.
  intros Hs. induction n as [|n IH]; intros fuel k width lastLayout breakpoints w Hpage Hn Hfuel.
  - destruct fuel as [|fuel]; [lia|]. cbn [breakpoint_loop].
    destruct (Z.leb_spec width maxWidth) as [Hle|Hgt].
    + pose proof (Z.div_pos (maxWidth - width) step ltac:(lia) ltac:(lia)). lia.
    + exists [], w. rewrite app_nil_r, Nat.add_0_r. repeat split; try done; lia.
  - destruct fuel as [|fuel]; [lia|]. cbn [breakpoint_loop].
    destruct (Z.leb_spec width maxWidth) as [Hle|Hgt]; [|lia].
    assert (Hn' : Z.of_nat n =
      (if (width + step <=? maxWidth)%Z then (maxWidth - (width + step)) / step + 1 else 0)%Z).
    { rewrite widths_left_step by lia. lia. }
    cbv beta zeta delta [mbind M_bind mret M_ret].
    destruct (match lastLayout with
              | Some l => negb (String.eqb l "") && negb (String.eqb (layout_key (layouts k)) l)
              | None => false
              end) eqn:Hchange.
    + destruct (Hpage (shots w)) as [img Himg].
      cbv beta zeta delta [timestamp page_screenshot]. world_simpl. rewrite Himg.
      world_simpl.
      match goal with
      | |- context [breakpoint_loop fuel layouts (S k) (width + step)%Z maxWidth step ?l ?b ?w1] =>
          destruct (IH fuel (S k) (width + step)%Z l b w1)
            as (found & w' & Hrun & Hlen & _ & Hp & Hb & Hmono);
            [ intros j; world_simpl; apply Hpage | exact Hn' | lia | ]
      end.
      eexists (_ :: found), w'. split.
      { rewrite Hrun, <- app_assoc. simpl. do 4 f_equal. lia. }
      split; [simpl; lia|].
      split.
      { intros ->. discriminate. }
      world_simpl. split; [exact Hp|]. split; [exact Hb|].
      intros p Hp'. apply Hmono. world_simpl.
      match goal with
      | |- is_Some (<[?q := _]> _ !! p) =>
          destruct (decide (p = q)) as [->|Hne];
            [rewrite lookup_insert_eq; eauto | by rewrite lookup_insert_ne]
      end.
    + destruct (IH fuel (S k) (width + step)%Z (Some (layout_key (layouts k))) breakpoints w)
        as (found & w' & Hrun & Hlen & _ & Hp & Hb & Hmono); [exact Hpage | exact Hn' | lia |].
      exists found, w'. split.
      { rewrite Hrun. do 4 f_equal. lia. }
      repeat split; try done; lia.
Qed.

(** Without progress the loop never ends with a result. *)
Lemma breakpoint_loop_stuck layouts maxWidth step :
  (step <= 0)%Z ->
  forall fuel k width lastLayout breakpoints w r w',
    (width <= maxWidth)%Z ->
    breakpoint_loop fuel layouts k width maxWidth step lastLayout breakpoints w
      <> (Return (Some r), w').
Proof.
  intros Hs. induction fuel as [|fuel IH]; intros k width lastLayout breakpoints w r w' Hw.
  - discriminate.
  - cbn [breakpoint_loop].
    destruct (Z.leb_spec width maxWidth) as [_|?]; [|lia].
    cbv beta zeta delta [mbind M_bind mret M_ret].
    destruct (match lastLayout with
              | Some l => negb (String.eqb l "") && negb (String.eqb (layout_key (layouts k)) l)
              | None => false
              end).
    + cbv beta zeta delta [timestamp page_screenshot]. world_simpl.
      destruct (page w (shots w)) as [img|]; [|discriminate].
      world_simpl. apply IH. lia.
    + apply IH. lia.
Qed.

Lemma tested_of_exact (minWidth maxWidth step : Z) :
  (0 < step)%Z ->
  tested_of minWidth maxWidth step =
    Js.of_Z (if ((maxWidth - minWidth) mod step =? 0)%Z
             then (maxWidth - minWidth) / step
             else (maxWidth - minWidth) / step + 1).
Proof.
  intros Hs. unfold tested_of.
  destruct (Z.eqb_spec step 0) as [?|_]; [lia|]. f_equal.
  replace (minWidth - maxWidth)%Z with (- (maxWidth - minWidth))%Z by lia.
  destruct (Z.eqb_spec ((maxWidth - minWidth) mod step) 0) as [Hz|Hnz].
  - rewrite Z.div_opp_l_z by (assumption || lia). lia.
  - rewrite Z.div_opp_l_nz by (assumption || lia). lia.
Qed.

(** X20: find_breakpoints with a positive step and minWidth <=
    maxWidth, when the browser starts, the site loads and captures succeed:
    with enough fuel the loop ends after (maxWidth - minWidth) div step + 1
    widths and reports fewer breakpoints than widths.  The reported
    [tested] is the number of widths visited only when the step does not
    divide maxWidth - minWidth; when it does, [tested] is one less. *)
Theorem breakpoint_scan_reports_one_width_less_on_exact_steps
    (layouts : nat -> Layout) (minWidth maxWidth step : Z) (w : World) (fuel : nat) :
  (0 < step)%Z -> (minWidth <= maxWidth)%Z ->
  launch_ok w = true -> goto_ok w = true ->
  (forall j, is_Some (page w j)) ->
  (Z.to_nat ((maxWidth - minWidth) / step + 1) < fuel)%nat ->
  exists items visited w1 w',
    breakpoint_loop fuel layouts 0 minWidth maxWidth step None []
      (with_browsers (S (browsers w)) w) = (Return (Some (items, visited)), w1) /\
    findBreakpoints fuel layouts (Some minWidth) (Some maxWidth) (Some step) w =
      (Return (Some [("success", VBool true);
                     ("breakpoints", VArr items);
                     ("tested",
                      VNum (Js.of_Z (if ((maxWidth - minWidth) mod step =? 0)%Z
                                     then Z.of_nat visited - 1
                                     else Z.of_nat visited)))]), w') /\
    Z.of_nat visited = ((maxWidth - minWidth) / step + 1)%Z /\
    (length items < visited)%nat /\
    browsers w' = browsers w.
Proof.
  intros Hs Hw Hl Hg Hpage Hfuel.
  pose proof (Z.div_pos (maxWidth - minWidth) step ltac:(lia) ltac:(lia)) as Hq.
  set (n := Z.to_nat ((maxWidth - minWidth) / step + 1)) in *.
  destruct (breakpoint_loop_run layouts maxWidth step Hs n fuel 0%nat minWidth None []
              (with_browsers (S (browsers w)) w))
    as (found & w1 & Hrun & Hlen & Hfirst & _ & Hb & _).
  { exact Hpage. }
  { destruct (Z.leb_spec minWidth maxWidth); lia. }
  { exact Hfuel. }
  simpl in Hrun.
  exists found, n, w1, (with_browsers (pred (browsers w1)) w1).
  split; [exact Hrun|].
  split.
  { unfold findBreakpoints.
    change (default 320%Z (Some minWidth)) with minWidth.
    change (default 1920%Z (Some maxWidth)) with maxWidth.
    change (default 50%Z (Some step)) with step.
    cbv beta zeta delta [try_finally mbind M_bind mret M_ret getBrowser newPage_goto
      browser_close].
    rewrite Hl. world_simpl. rewrite Hg, Hrun. world_simpl.
    rewrite tested_of_exact by assumption.
    replace (Z.of_nat n) with ((maxWidth - minWidth) / step + 1)%Z by lia.
    destruct ((maxWidth - minWidth) mod step =? 0)%Z;
      repeat f_equal; lia. }
  split; [lia|].
  split; [apply Hfirst; [reflexivity | lia]|].
  world_simpl. rewrite Hb. reflexivity.
Qed.

Lemma breakpoint_scan_reports_one_width_less_on_exact_steps_witness :
  exists items visited w1 w',
    breakpoint_loop 40 restless_layouts 0 320 1920 50 None []
      (with_browsers (S (browsers steady_world)) steady_world)
      = (Return (Some (items, visited)), w1) /\
    findBreakpoints 40 restless_layouts (Some 320%Z) (Some 1920%Z) (Some 50%Z) steady_world =
      (Return (Some [("success", VBool true);
                     ("breakpoints", VArr items);
                     ("tested",
                      VNum (Js.of_Z (if ((1920 - 320) mod 50 =? 0)%Z
                                     then Z.of_nat visited - 1
                                     else Z.of_nat visited)))]), w') /\
    Z.of_nat visited = ((1920 - 320) / 50 + 1)%Z /\
    (length items < visited)%nat /\
    browsers w' = browsers steady_world.
Proof.
  apply (breakpoint_scan_reports_one_width_less_on_exact_steps restless_layouts
           320 1920 50 steady_world 40);
    [lia | lia | reflexivity | reflexivity | intros j; simpl; eauto | vm_compute; lia].
Defined.

(** X21: with a step of zero or less and minWidth <= maxWidth the
    loop of find_breakpoints makes no progress: whatever the fuel, the
    call never returns a result (it runs on, unless the browser, the site
    or a capture fails). *)
Theorem breakpoint_scan_needs_a_positive_step
    (layouts : nat -> Layout) (minWidth maxWidth step : Z) (w : World) :
  (step <= 0)%Z -> (minWidth <= maxWidth)%Z ->
  forall fuel r w',
    findBreakpoints fuel layouts (Some minWidth) (Some maxWidth) (Some step) w
      <> (Return (Some r), w').
Proof.
  intros Hs Hw fuel r w'.
  unfold findBreakpoints.
  change (default 320%Z (Some minWidth)) with minWidth.
  change (default 1920%Z (Some maxWidth)) with maxWidth.
  change (default 50%Z (Some step)) with step.
  cbv beta zeta delta [try_finally mbind M_bind mret M_ret getBrowser newPage_goto
    browser_close].
  destruct (launch_ok w); [|discriminate]. world_simpl.
  destruct (goto_ok w); [|discriminate].
  pose proof (breakpoint_loop_stuck layouts maxWidth step Hs fuel 0%nat minWidth None []
                (with_browsers (S (browsers w)) w)) as Hstuck.
  destruct (breakpoint_loop fuel layouts 0 minWidth maxWidth step None []
              (with_browsers (S (browsers w)) w)) as [[[[bps k]|]|e] w1].
  - exfalso. by eapply Hstuck.
  - discriminate.
  - discriminate.
Qed.

Lemma breakpoint_scan_needs_a_positive_step_witness :
  (0 <= 0)%Z /\ (320 <= 1920)%Z /\
  forall fuel r w',
    findBreakpoints fuel restless_layouts (Some 320%Z) (Some 1920%Z) (Some 0%Z) steady_world
      <> (Return (Some r), w').
Proof.
  split; [lia|]. split; [lia|].
  apply (breakpoint_scan_needs_a_positive_step restless_layouts 320 1920 0 steady_world); lia.
Defined.

(** * Performance budget *)

Lemma passed_and_failed_partition (checks : list BudgetCheck) :
  (length (filter (fun c => check_passed c = true) checks)
   + length (filter (fun c => check_passed c = false) checks))%nat = length checks.
Proof.
  induction checks as [|c checks IH]; [reflexivity|].
  rewrite !filter_cons. destruct (check_passed c); simpl; lia.
Qed.

Lemma checkBudget_run Number_toString facts budgets viewport w :
  launch_ok w = true -> goto_ok w = true ->
  checkBudget Number_toString facts budgets viewport w =
    (Return
       [("success", VBool true);
        ("budgetResult",
         VStr (if (length (filter (fun c => check_passed c = true)
                             (checks_of (default ∅ budgets) facts)) =? 6)%nat
               then "PASSED" else "FAILED"));
        ("score",
         VStr (pretty (length (filter (fun c => check_passed c = true)
                                 (checks_of (default ∅ budgets) facts))) +:+ "/" +:+ "6"));
        ("checks",
         VObj (map (fun c => (check_name c, check_value_of c))
                 (checks_of (default ∅ budgets) facts)));
        ("recommendations",
         VArr (map (recommendation Number_toString)
                 (filter (fun c => check_passed c = false)
                    (checks_of (default ∅ budgets) facts))))], w).
Proof.
  intros Hl Hg.
  cbv beta zeta delta [checkBudget try_finally mbind M_bind mret M_ret
    getBrowser newPage_goto browser_close].
  rewrite Hl. world_simpl. rewrite Hg. world_simpl.
  apply pair_equal_spec; split; [reflexivity | destruct w; reflexivity].
Qed.

(** X22: check_budget, when the browser starts and the site loads,
    changes nothing and its verdict agrees with its list: the score counts
    the checks that passed out of six, there is one recommendation for
    each check that did not pass, and the result is PASSED exactly when
    there is no recommendation. *)
Theorem budget_verdict_agrees_with_recommendations
    (Number_toString : Js.number -> string) (facts : BudgetFacts)
    (budgets : option (gmap string Js.number)) (viewport : option string) (w : World) :
  launch_ok w = true -> goto_ok w = true ->
  exists r passedCount recommendations,
    checkBudget Number_toString facts budgets viewport w = (Return r, w) /\
    get "score" r = Some (VStr (pretty passedCount +:+ "/" +:+ "6")) /\
    get "recommendations" r = Some (VArr recommendations) /\
    (passedCount + length recommendations)%nat = 6%nat /\
    (get "budgetResult" r = Some (VStr "PASSED") <-> recommendations = []) /\
    (get "budgetResult" r = Some (VStr "FAILED") <-> recommendations <> []).
Proof.
  intros Hl Hg.
  set (checks := checks_of (default ∅ budgets) facts).
  pose proof (passed_and_failed_partition checks) as Hpart.
  change (length checks) with 6%nat in Hpart.
  eexists _, (length (filter (fun c => check_passed c = true) checks)),
    (map (recommendation Number_toString) (filter (fun c => check_passed c = false) checks)).
  split; [exact (checkBudget_run Number_toString facts budgets viewport w Hl Hg)|].
  fold checks.
  split; [reflexivity|]. split; [reflexivity|].
  split; [rewrite length_map; exact Hpart|].
  cbn [get String.eqb Ascii.eqb Bool.eqb].
  destruct (Nat.eqb_spec (length (filter (fun c => check_passed c = true) checks)) 6)
    as [Hall|Hsome].
  - assert (Hnone : filter (fun c => check_passed c = false) checks = []).
    { apply length_zero_iff_nil. lia. }
    rewrite Hnone. split; split; try done.
  - assert (Hrec : filter (fun c => check_passed c = false) checks <> []).
    { intros Hnil. rewrite Hnil in Hpart. simpl in Hpart. lia. }
    split; split; try done.
    + intros Hnil. apply map_eq_nil in Hnil. contradiction.
    + intros _ Hnil. apply map_eq_nil in Hnil. contradiction.
Qed.

Lemma budget_verdict_agrees_with_recommendations_witness :
  exists r passedCount recommendations,
    checkBudget plain_text light_page None None steady_world = (Return r, steady_world) /\
    get "score" r = Some (VStr (pretty passedCount +:+ "/" +:+ "6")) /\
    get "recommendations" r = Some (VArr recommendations) /\
    (passedCount + length recommendations)%nat = 6%nat /\
    (get "budgetResult" r = Some (VStr "PASSED") <-> recommendations = []) /\
    (get "budgetResult" r = Some (VStr "FAILED") <-> recommendations <> []).
Proof.
  apply (budget_verdict_agrees_with_recommendations plain_text light_page None None
           steady_world); reflexivity.
Defined.

Lemma checked_budget_lookup (budgets : gmap string Js.number) (k : string) :
  k ∈ checked_budgets ->
  (filter (fun kv => kv.1 ∈ checked_budgets) budgets ∪ DEFAULT_BUDGETS) !! k
  = (budgets ∪ DEFAULT_BUDGETS) !! k.
Proof.
  intros Hk. rewrite !lookup_union. f_equal.
  rewrite map_lookup_filter. destruct (budgets !! k) as [x|]; [|reflexivity].
  simpl. by rewrite option_guard_True.
Qed.

(** X23: only the budgets named loadTime, ttfb, fcp, domElements,
    requests and totalSize matter to check_budget: dropping every other
    entry of the given budgets (lcp and cls among them) gives the same
    outcome. *)
Theorem only_six_budgets_are_checked
    (Number_toString : Js.number -> string) (facts : BudgetFacts)
    (budgets : gmap string Js.number) (viewport : option string) (w : World) :
  checkBudget Number_toString facts
    (Some (filter (fun kv => kv.1 ∈ checked_budgets) budgets)) viewport w
  = checkBudget Number_toString facts (Some budgets) viewport w.
Proof.
  assert (Hchecks : checks_of (filter (fun kv => kv.1 ∈ checked_budgets) budgets) facts
                    = checks_of budgets facts).
  { unfold checks_of. cbv zeta.
    rewrite !checked_budget_lookup by (unfold checked_budgets; set_solver).
    reflexivity. }
  unfold checkBudget.
  change (default ∅ (Some ?b)) with b.
  cbv zeta. rewrite Hchecks. reflexivity.
Qed.

(** * Witnesses of two earlier properties *)

Lemma large_files_stay_in_range_witness :
  in_percent_range
    (diffPercentage_in (bytes 10000 x00) (bytes 10000 xff) no_capture_world) = true.
Proof.
  apply (large_files_stay_in_range (bytes 10000 x00) (bytes 10000 xff) no_capture_world);
    rewrite length_bytes; apply Nat.leb_le; vm_compute; reflexivity.
Defined.

